(** * XAS-CDIF: classification of HDF5 datasets and JSON-LD assembly

    A shallow embedding of [hdf5Work/chatGPT-HDF5reader.py]:
    [classify_datasets] (the visitor, the dimension-candidate pass and the
    classification pass) and [build_jsonld] (with its helpers [checkForBytes]
    and [add_var]), followed by the properties of the specification that
    concern them.

    Python values are modelled as follows.
    - [str]: a Rocq [string] holding the UTF-8 encoding of the text.
    - [bytes] and [numpy.bytes_]: [list byte].
    - [int]: [Z].  A shape is a tuple of [int], or [None] (h5py gives
      [None] for a dataset with a null dataspace).
    - [dict]: an association list in insertion order.
    - [set]: the list of its elements; the order in which a set is iterated
      is a parameter of the model ([set_iter]), because CPython derives it
      from randomised string hashes.
    - exceptions and the mutation of local variables by closures: a state
      and error monad in which the store survives a raised exception. *)

From Stdlib Require Import String Ascii List ZArith NArith Bool Lia Permutation.
From Stdlib.Strings Require Import Byte.
Import ListNotations.
Open Scope string_scope.
Open Scope list_scope.


(** ** Python strings *)

Module PyStr.

(** [str.lower()] on the ASCII letters.  Outside ASCII Python applies the
    Unicode lower-case mapping; no such mapping produces one of the letters
    t, m or e, and the only one producing an i (U+0130) puts U+0307 after
    it, so the test ["time" in name.lower()] is decided by the ASCII
    letters alone. *)
Definition lower_ascii (c : ascii) : ascii :=
  let n := nat_of_ascii c in
  if (65 <=? n)%nat && (n <=? 90)%nat then ascii_of_nat (n + 32) else c.

Fixpoint lower (s : string) : string :=
  match s with
  | EmptyString => EmptyString
  | String c r => String (lower_ascii c) (lower r)
  end.

(** [needle in hay] for two strings. *)
Fixpoint contains (needle hay : string) : bool :=
  String.prefix needle hay
  || match hay with
     | EmptyString => false
     | String _ r => contains needle r
     end.

(** [s.split(sep)] for a separator of one character. *)
Fixpoint split (sep : ascii) (s : string) : list string :=
  match s with
  | EmptyString => [EmptyString]
  | String c r =>
      if Ascii.eqb c sep then EmptyString :: split sep r
      else match split sep r with
           | [] => [String c EmptyString]
           | h :: t => String c h :: t
           end
  end.

(** [l[-1]] on the list that [split] returns, which is never empty. *)
Definition last_item (l : list string) : string := List.last l EmptyString.

Fixpoint has_char (c : ascii) (s : string) : bool :=
  match s with
  | EmptyString => false
  | String d r => Ascii.eqb d c || has_char c r
  end.

End PyStr.

(** ** Exceptions *)

Inductive exn : Type :=
| TypeError
| KeyError
| IndexError
| UnicodeDecodeError.

(** ** The UTF-8 codec: [bytes.decode("utf-8", errors=...)] *)

Module Utf8.

Inductive errors : Type := strict | replace | ignore.

(** The decoder reads one byte at a time.  [Pending seen need lo hi]: the
    bytes [seen] start a sequence that still needs [need] bytes, the next
    of which must lie in [lo..hi]. *)
Inductive dstate : Type :=
| Start
| Pending (seen : list byte) (need : nat) (lo hi : N).

(** One decoded item: the bytes of a well-formed sequence, or an
    undecodable run of input (a maximal ill-formed prefix). *)
Inductive item : Type :=
| Scalar (bs : list byte)
| Bad.

Definition between (lo hi n : N) : bool := (lo <=? n)%N && (n <=? hi)%N.

Definition start (b : byte) : list item * dstate :=
  let n := Byte.to_N b in
  if (n <? 128)%N then ([Scalar [b]], Start)
  else if between 194 223 n then ([], Pending [b] 1 128 191)
  else if (n =? 224)%N then ([], Pending [b] 2 160 191)
  else if (n =? 237)%N then ([], Pending [b] 2 128 159)
  else if between 225 239 n then ([], Pending [b] 2 128 191)
  else if (n =? 240)%N then ([], Pending [b] 3 144 191)
  else if between 241 243 n then ([], Pending [b] 3 128 191)
  else if (n =? 244)%N then ([], Pending [b] 3 128 143)
  else ([Bad], Start).

Definition step (st : dstate) (b : byte) : list item * dstate :=
  match st with
  | Start => start b
  | Pending seen need lo hi =>
      if between lo hi (Byte.to_N b) then
        match need with
        | 0%nat | 1%nat => ([Scalar (seen ++ [b])], Start)
        | S k => ([], Pending (seen ++ [b]) k 128 191)
        end
      else let '(out, st') := start b in (Bad :: out, st')
  end.

Fixpoint run (st : dstate) (input : list byte) : list item :=
  match input with
  | [] => match st with Start => [] | Pending _ _ _ _ => [Bad] end
  | b :: rest => let '(out, st') := step st b in out ++ run st' rest
  end.

(** U+FFFD REPLACEMENT CHARACTER, in UTF-8. *)
Definition replacement : list byte := [xef; xbf; xbd].

Definition is_bad (i : item) : bool :=
  match i with Bad => true | Scalar _ => false end.

Definition render (i : item) : list byte :=
  match i with Scalar bs => bs | Bad => replacement end.

Definition render_ignore (i : item) : list byte :=
  match i with Scalar bs => bs | Bad => [] end.

Definition decode (input : list byte) (e : errors) : exn + string :=
  let items := run Start input in
  match e with
  | strict =>
      if existsb is_bad items then inl UnicodeDecodeError
      else inr (string_of_list_byte (flat_map render items))
  | replace => inr (string_of_list_byte (flat_map render items))
  | ignore => inr (string_of_list_byte (flat_map render_ignore items))
  end.

End Utf8.

(** ** A state and error monad

    [M S A]: a computation over a store [S] that returns an [A] or raises.
    The store is returned in both cases: what a Python closure has written
    before an exception is raised stays written. *)

Definition M (S A : Type) : Type := S -> (exn + A) * S.

Definition ret {S A} (a : A) : M S A := fun st => (inr a, st).

Definition bind {S A B} (c : M S A) (k : A -> M S B) : M S B :=
  fun st =>
    match c st with
    | (inr a, st') => k a st'
    | (inl e, st') => (inl e, st')
    end.

Definition raise {S A} (e : exn) : M S A := fun st => (inl e, st).

(** A pure computation that may raise, run inside [M]. *)
Definition lift {S A} (r : exn + A) : M S A := fun st => (r, st).

Definition gets {S A} (f : S -> A) : M S A := fun st => (inr (f st), st).

Definition modify {S} (f : S -> S) : M S unit := fun st => (inr tt, f st).

(** [try: body  except: handler] with a handler that catches everything. *)
Definition try_except {S A} (body : M S A) (handler : exn -> M S A) : M S A :=
  fun st =>
    match body st with
    | (inr a, st') => (inr a, st')
    | (inl e, st') => handler e st'
    end.

Declare Scope py_scope.
Delimit Scope py_scope with py.
Notation "x <- c ;; k" := (bind c (fun x => k))
  (at level 61, c at next level, right associativity) : py_scope.
Notation "c ;; k" := (bind c (fun _ => k))
  (at level 61, right associativity) : py_scope.
Open Scope py_scope.

(** [for x in xs: body]. *)
Fixpoint for_each {S X} (xs : list X) (body : X -> M S unit) : M S unit :=
  match xs with
  | [] => ret tt
  | x :: rest => body x ;; for_each rest body
  end.

Definition when {S} (b : bool) (c : M S unit) : M S unit :=
  if b then c else ret tt.

(** The same for computations without a store. *)
Definition bind_r {A B} (r : exn + A) (k : A -> exn + B) : exn + B :=
  match r with
  | inr a => k a
  | inl e => inl e
  end.

(** ** Python containers *)

Module PyDict.

(** [d[k] = v]: a key that is already present keeps its position. *)
Fixpoint set {V} (k : string) (v : V) (d : list (string * V)) : list (string * V) :=
  match d with
  | [] => [(k, v)]
  | (k', v') :: r =>
      if String.eqb k' k then (k', v) :: r else (k', v') :: set k v r
  end.

(** [d[k]]. *)
Fixpoint get {V} (k : string) (d : list (string * V)) : exn + V :=
  match d with
  | [] => inl KeyError
  | (k', v) :: r => if String.eqb k' k then inr v else get k r
  end.

End PyDict.

Module PySet.

(** [x in s]. *)
Definition mem (x : string) (s : list string) : bool :=
  existsb (String.eqb x) s.

(** [s.add(x)]. *)
Definition add (x : string) (s : list string) : list string :=
  if mem x s then s else s ++ [x].

End PySet.

(** ** Attribute values *)

(** The Python objects that h5py hands out as attribute names and values:
    [numpy.bytes_] (a scalar of a fixed-length string type), [bytes], [str],
    [int], [float] (a binary fraction [m * 2^e]), [list] and
    [numpy.ndarray] (its elements, themselves scalars or sub-arrays). *)
#[warnings="-register-all"]
Inductive pyval : Type :=
| NpBytes (b : list byte)
| PyBytes (b : list byte)
| PyStr (s : string)
| PyInt (n : Z)
| PyFloat (m e : Z)
| PyList (l : list pyval)
| NdArray (l : list pyval).

(** [ndarray.tolist()]: nested lists of built-in Python scalars. *)
Fixpoint item (v : pyval) : pyval :=
  match v with
  | NpBytes b => PyBytes b
  | NdArray l => PyList (map item l)
  | other => other
  end.

Definition tolist (v : pyval) : pyval :=
  match v with
  | NdArray l => PyList (map item l)
  | other => other
  end.

Definition is_ndarray (v : pyval) : bool :=
  match v with NdArray _ => true | _ => false end.

Definition is_np_bytes (v : pyval) : bool :=
  match v with NpBytes _ => true | _ => false end.

(** ** The HDF5 file as the visitor sees it *)

(** A dataset object: [obj.shape], [str(obj.dtype)], [obj.attrs.items()]
    and the labels [d.label] of [obj.dims]. *)
Record Dataset : Type := mkDataset {
  ds_shape : option (list Z);
  ds_dtype : string;
  ds_attrs : list (pyval * pyval);
  ds_dims : list (option string)
}.

Inductive h5object : Type :=
| Group
| IsDataset (d : Dataset).

(** What [h5file.visititems] passes to its callback, in order. *)
Definition h5file : Type := list (string * h5object).

(** The [info] dictionary of one dataset. *)
Record Info : Type := mkInfo {
  path : string;
  shape : option (list Z);
  dtype : string;
  attrs : list (pyval * pyval);
  dims : list (option string)
}.

(** The [classification] dictionary. *)
Record Classification : Type := mkClassification {
  measures : list Info;
  dimensions : list Info;
  attributes : list Info
}.

(** The arguments of one [print] call. *)
Inductive printed : Type :=
| PText (s : string)
| PShape (s : option (list Z))
| PDims (d : list (option string)).

(** The local variables of [classify_datasets] that its loops and its
    closure write to, and the standard output. *)
Record Store : Type := mkStore {
  classification : Classification;
  datasets_info : list (string * Info);
  dim_candidates : list string;
  stdout : list (list printed)
}.

(** What the program takes from its runtime: numpy's
    [np.issubdtype(np.dtype(tag), np.number)], which raises when [np.dtype]
    does not understand [tag], and the order in which a [set] of strings
    with the given elements is iterated (whatever the order, iteration
    yields the elements of the set and nothing else). *)
Record Runtime : Type := mkRuntime {
  issubdtype_number : string -> exn + bool;
  set_iter : list string -> list string;
  set_iter_elements : forall s x, In x (set_iter s) <-> In x s
}.

Definition set_classification (c : Classification) (st : Store) : Store :=
  mkStore c (datasets_info st) (dim_candidates st) (stdout st).

Definition set_datasets_info (d : list (string * Info)) (st : Store) : Store :=
  mkStore (classification st) d (dim_candidates st) (stdout st).

Definition set_dim_candidates (s : list string) (st : Store) : Store :=
  mkStore (classification st) (datasets_info st) s (stdout st).

(** [print(...)]. *)
Definition print (args : list printed) : M Store unit :=
  modify (fun st =>
    mkStore (classification st) (datasets_info st) (dim_candidates st)
            (stdout st ++ [args])).

(** ** [len], truth values, indexing and membership *)

Definition py_len (s : option (list Z)) : exn + Z :=
  match s with
  | None => inl TypeError
  | Some l => inr (Z.of_nat (length l))
  end.

(** The truth value of a shape: [None] and [()] are false. *)
Definition truthy_shape (s : option (list Z)) : bool :=
  match s with
  | None | Some [] => false
  | Some (_ :: _) => true
  end.

(** [shape[0]]. *)
Definition py_first (s : option (list Z)) : exn + Z :=
  match s with
  | None => inl TypeError
  | Some [] => inl IndexError
  | Some (x :: _) => inr x
  end.

(** [x in shape]. *)
Definition py_in (x : Z) (s : option (list Z)) : exn + bool :=
  match s with
  | None => inl TypeError
  | Some l => inr (existsb (Z.eqb x) l)
  end.

(** The truth value of a label: [None] and [""] are false. *)
Definition truthy_label (d : option string) : bool :=
  match d with
  | None => false
  | Some s => negb (String.eqb s "")
  end.

(** [d != ""]. *)
Definition not_empty_str (d : option string) : bool :=
  match d with
  | None => true
  | Some s => negb (String.eqb s "")
  end.

(** [d and d != ""]. *)
Definition label_present (d : option string) : bool :=
  truthy_label d && not_empty_str d.

(** ** [classify_datasets] *)

Section Classify.

Variable rt : Runtime.

(** The callback of [h5file.visititems]. *)
Definition visitor (name : string) (obj : h5object) : M Store unit :=
  match obj with
  | IsDataset d =>
      let info :=
        {| path := name;
           shape := ds_shape d;
           dtype := ds_dtype d;
           attrs := map (fun kv => (fst kv, if is_ndarray (snd kv)
                                            then tolist (snd kv) else snd kv))
                        (ds_attrs d);
           dims := ds_dims d |} in
      modify (fun st => set_datasets_info (PyDict.set name info (datasets_info st)) st)
  | Group => ret tt
  end.

Definition add_candidate (name : string) : M Store unit :=
  modify (fun st => set_dim_candidates (PySet.add name (dim_candidates st)) st).

(** The body of the loop that identifies the dimension candidates. *)
Definition candidate_body (name : string) (info : Info) : M Store unit :=
  try_except
    (n <- lift (py_len (shape info)) ;;
     when (n =? 1)%Z (add_candidate name) ;;
     for_each (dims info) (fun d => when (label_present d) (add_candidate name)))
    (fun _ => print [PText name; PShape (shape info); PDims (dims info)]).

Definition append_measures (info : Info) : M Store unit :=
  modify (fun st =>
    let c := classification st in
    set_classification (mkClassification (measures c ++ [info]) (dimensions c) (attributes c)) st).

Definition append_dimensions (info : Info) : M Store unit :=
  modify (fun st =>
    let c := classification st in
    set_classification (mkClassification (measures c) (dimensions c ++ [info]) (attributes c)) st).

Definition append_attributes (info : Info) : M Store unit :=
  modify (fun st =>
    let c := classification st in
    set_classification (mkClassification (measures c) (dimensions c) (attributes c ++ [info])) st).

(** [datasets_info[d]["shape"]]. *)
Definition shape_of (ds : list (string * Info)) (d : string) : exn + option (list Z) :=
  bind_r (PyDict.get d ds) (fun i => inr (shape i)).

(** [[datasets_info[d]["shape"][0] for d in dim_candidates
      if datasets_info[d]["shape"]]], over the candidates in the order in
    which the set yields them. *)
Fixpoint dim_lens (ds : list (string * Info)) (cands : list string) : exn + list Z :=
  match cands with
  | [] => inr []
  | d :: rest =>
      bind_r (shape_of ds d) (fun s =>
        if truthy_shape s then
          bind_r (shape_of ds d) (fun s' =>
            bind_r (py_first s') (fun x =>
              bind_r (dim_lens ds rest) (fun l => inr (x :: l))))
        else dim_lens ds rest)
  end.

(** [any(len(info["shape"]) > 0 and dim_len in info["shape"]
         for dim_len in lens)]. *)
Fixpoint any_aligned (sh : option (list Z)) (lens : list Z) : exn + bool :=
  match lens with
  | [] => inr false
  | dim_len :: rest =>
      bind_r (py_len sh) (fun n =>
        if (0 <? n)%Z then
          bind_r (py_in dim_len sh) (fun b =>
            if b then inr true else any_aligned sh rest)
        else any_aligned sh rest)
  end.

(** The body of the loop that classifies the datasets. *)
Definition classify_body (name : string) (info : Info) : M Store unit :=
  print [PText "name, shape"; PText name; PShape (shape info)] ;;
  try_except
    (cands <- gets dim_candidates ;;
     if PySet.mem name cands then
       numeric <- lift (issubdtype_number rt (dtype info)) ;;
       if numeric || PyStr.contains "time" (PyStr.lower name)
       then append_dimensions info
       else append_attributes info
     else
       ds <- gets datasets_info ;;
       lens <- lift (dim_lens ds (set_iter rt cands)) ;;
       aligned <- lift (any_aligned (shape info) lens) ;;
       if aligned then append_measures info else append_attributes info)
    (fun _ => print [PText name; PShape (shape info); PDims (dims info)]).

Definition classify_datasets (f : h5file) : M Store Classification :=
  modify (set_classification (mkClassification [] [] [])) ;;
  modify (set_datasets_info []) ;;
  for_each f (fun no => visitor (fst no) (snd no)) ;;
  modify (set_dim_candidates []) ;;
  items <- gets datasets_info ;;
  for_each items (fun ni => candidate_body (fst ni) (snd ni)) ;;
  items <- gets datasets_info ;;
  for_each items (fun ni => classify_body (fst ni) (snd ni)) ;;
  gets classification.

End Classify.

(** ** [build_jsonld] *)

Record PropertyValue : Type := mkPropertyValue {
  ap_type : string;
  ap_name : option string;
  ap_value : option string
}.

Record VariableEntry : Type := mkVariableEntry {
  ve_type : string;
  ve_name : string;
  dataset : string;
  encodingFormat : string;
  ddi_role : string;
  additionalProperty : list PropertyValue
}.

Record JsonLd : Type := mkJsonLd {
  ld_context : list (string * string);
  ld_type : string;
  ld_name : string;
  variableMeasured : list VariableEntry
}.

(** The function ends without a [return] when [inval] is not a
    [numpy.bytes_]: it then returns [None]. *)
Definition checkForBytes (inval : pyval) : exn + option string :=
  match inval with
  | NpBytes b => bind_r (Utf8.decode b Utf8.replace) (fun s => inr (Some s))
  | _ => inr None
  end.

(** The list comprehension over [info["attrs"].items()]. *)
Fixpoint additional_properties (items : list (pyval * pyval)) : exn + list PropertyValue :=
  match items with
  | [] => inr []
  | (k, v) :: rest =>
      bind_r (checkForBytes k) (fun n =>
        bind_r (checkForBytes v) (fun x =>
          bind_r (additional_properties rest) (fun l =>
            inr (mkPropertyValue "PropertyValue" n x :: l))))
  end.

Definition add_var (info : Info) (role : string) : M JsonLd unit :=
  props <- lift (additional_properties (attrs info)) ;;
  modify (fun jsonld =>
    mkJsonLd (ld_context jsonld) (ld_type jsonld) (ld_name jsonld)
      (variableMeasured jsonld ++
       [ {| ve_type := "PropertyValue";
            ve_name := PyStr.last_item (PyStr.split "/" (path info));
            dataset := "/" ++ path info;
            encodingFormat := "application/x-hdf5";
            ddi_role := role;
            additionalProperty := props |} ])).

Definition build_jsonld (c : Classification) (dataset_name : string) : exn + JsonLd :=
  let jsonld :=
    {| ld_context := [("@vocab", "https://schema.org/");
                      ("ddi", "https://ddi-alliance.org/ns/cdi#")];
       ld_type := "Dataset";
       ld_name := dataset_name;
       variableMeasured := [] |} in
  fst ((for_each (measures c) (fun info => add_var info "Measure") ;;
        for_each (dimensions c) (fun info => add_var info "Dimension") ;;
        for_each (attributes c) (fun info => add_var info "Attribute") ;;
        gets (fun j => j)) jsonld).

(** ** The pipeline of the script *)

Definition empty_store : Store :=
  mkStore (mkClassification [] [] []) [] [] [].

(** [classification = classify_datasets(f)] followed by
    [build_jsonld(classification, dataset_name=...)]: the document or the
    exception that reaches the caller, and what was printed. *)
Definition pipeline (rt : Runtime) (f : h5file) (dataset_name : string)
  : (exn + JsonLd) * list (list printed) :=
  match classify_datasets rt f empty_store with
  | (inr c, st) => (build_jsonld c dataset_name, stdout st)
  | (inl e, st) => (inl e, stdout st)
  end.

(** ** What the loops compute

    The functions of this section describe, without store and without
    exceptions, what each loop body does; the lemmas below prove that the
    loops above compute exactly this. *)

Inductive role : Type := Measure | Dimension | Attribute.

Definition role_eqb (a b : role) : bool :=
  match a, b with
  | Measure, Measure | Dimension, Dimension | Attribute, Attribute => true
  | _, _ => false
  end.

(** The group of a role in a classification. *)
Definition group (r : role) (c : Classification) : list Info :=
  match r with
  | Measure => measures c
  | Dimension => dimensions c
  | Attribute => attributes c
  end.

(** [assigned c i r]: the descriptor [i] is in the group of [r] and in no
    other group. *)
Definition assigned (c : Classification) (i : Info) (r : role) : Prop :=
  In i (group r c) /\ forall r', In i (group r' c) -> r' = r.

(** [dropped c i]: the descriptor [i] is in none of the three groups. *)
Definition dropped (c : Classification) (i : Info) : Prop :=
  forall r, ~ In i (group r c).

(** The descriptor that the visitor builds. *)
Definition info_of (name : string) (d : Dataset) : Info :=
  {| path := name;
     shape := ds_shape d;
     dtype := ds_dtype d;
     attrs := map (fun kv => (fst kv, if is_ndarray (snd kv)
                                      then tolist (snd kv) else snd kv))
                  (ds_attrs d);
     dims := ds_dims d |}.

Definition visit_step (di : list (string * Info)) (no : string * h5object)
  : list (string * Info) :=
  match snd no with
  | IsDataset d => PyDict.set (fst no) (info_of (fst no) d) di
  | Group => di
  end.

(** The descriptor collection after the visit. *)
Definition collect (f : h5file) : list (string * Info) :=
  fold_left visit_step f [].

Definition is_candidate (i : Info) : bool :=
  match shape i with
  | None => false
  | Some s => (Z.of_nat (length s) =? 1)%Z || existsb label_present (dims i)
  end.

Definition candidate_step (st : Store) (ni : string * Info) : Store :=
  match shape (snd ni) with
  | None =>
      mkStore (classification st) (datasets_info st) (dim_candidates st)
        (stdout st ++ [[PText (fst ni); PShape (shape (snd ni)); PDims (dims (snd ni))]])
  | Some _ =>
      if is_candidate (snd ni)
      then set_dim_candidates (PySet.add (fst ni) (dim_candidates st)) st
      else st
  end.

(** The outcome of the [try] block of the classification loop for one
    descriptor: the group it is appended to, or the exception raised. *)
Definition node_role (rt : Runtime) (ds : list (string * Info)) (cands : list string)
  (name : string) (i : Info) : exn + role :=
  if PySet.mem name cands then
    bind_r (issubdtype_number rt (dtype i)) (fun numeric =>
      inr (if numeric || PyStr.contains "time" (PyStr.lower name)
           then Dimension else Attribute))
  else
    bind_r (dim_lens ds (set_iter rt cands)) (fun lens =>
      bind_r (any_aligned (shape i) lens) (fun aligned =>
        inr (if aligned then Measure else Attribute))).

Definition append_to (r : role) (i : Info) (c : Classification) : Classification :=
  match r with
  | Measure => mkClassification (measures c ++ [i]) (dimensions c) (attributes c)
  | Dimension => mkClassification (measures c) (dimensions c ++ [i]) (attributes c)
  | Attribute => mkClassification (measures c) (dimensions c) (attributes c ++ [i])
  end.

Definition classify_step (rt : Runtime) (st : Store) (ni : string * Info) : Store :=
  let line := [PText "name, shape"; PText (fst ni); PShape (shape (snd ni))] in
  match node_role rt (datasets_info st) (dim_candidates st) (fst ni) (snd ni) with
  | inr r =>
      mkStore (append_to r (snd ni) (classification st)) (datasets_info st)
        (dim_candidates st) (stdout st ++ [line])
  | inl _ =>
      mkStore (classification st) (datasets_info st) (dim_candidates st)
        ((stdout st ++ [line])
         ++ [[PText (fst ni); PShape (shape (snd ni)); PDims (dims (snd ni))]])
  end.

(** The entry that [add_var] appends. *)
Definition entry_of (props : list PropertyValue) (i : Info) (r : string) : VariableEntry :=
  {| ve_type := "PropertyValue";
     ve_name := PyStr.last_item (PyStr.split "/" (path i));
     dataset := "/" ++ path i;
     encodingFormat := "application/x-hdf5";
     ddi_role := r;
     additionalProperty := props |}.

(** The role tag of each group. *)
Definition role_tag (r : role) : string :=
  match r with
  | Measure => "Measure"
  | Dimension => "Dimension"
  | Attribute => "Attribute"
  end.

(** The candidate set after the first loop, from the empty set. *)
Definition candidates (di : list (string * Info)) : list string :=
  fold_left (fun s ni => if is_candidate (snd ni) then PySet.add (fst ni) s else s) di [].

Definition has_role (rt : Runtime) (di : list (string * Info)) (cands : list string)
  (r : role) (ni : string * Info) : bool :=
  match node_role rt di cands (fst ni) (snd ni) with
  | inr r' => role_eqb r' r
  | inl _ => false
  end.

(** The members of a group, in the order of the descriptor collection. *)
Definition members (rt : Runtime) (di : list (string * Info)) (r : role) : list Info :=
  map snd (filter (has_role rt di (candidates di) r) di).

Definition classified (rt : Runtime) (f : h5file) : Classification :=
  let di := collect f in
  mkClassification (members rt di Measure) (members rt di Dimension)
                   (members rt di Attribute).

(** What the two loops print. *)
Definition diagnostic (ni : string * Info) : list printed :=
  [PText (fst ni); PShape (shape (snd ni)); PDims (dims (snd ni))].

Definition candidate_log (di : list (string * Info)) : list (list printed) :=
  flat_map (fun ni => match shape (snd ni) with
                      | None => [diagnostic ni]
                      | Some _ => []
                      end) di.

Definition classify_lines (rt : Runtime) (di : list (string * Info))
  (cands : list string) (ni : string * Info) : list (list printed) :=
  [PText "name, shape"; PText (fst ni); PShape (shape (snd ni))]
  :: match node_role rt di cands (fst ni) (snd ni) with
     | inr _ => []
     | inl _ => [diagnostic ni]
     end.

Definition classify_log (rt : Runtime) (di : list (string * Info)) : list (list printed) :=
  flat_map (classify_lines rt di (candidates di)) di.

(** A dictionary of descriptors as the visitor builds it: no key twice, and
    each descriptor stored under its own path. *)
Definition keyed (di : list (string * Info)) : Prop :=
  NoDup (map fst di) /\ forall n i, In (n, i) di -> path i = n.

(** What [checkForBytes] yields when nothing is raised. *)
Definition decoded (v : pyval) : option string :=
  match v with
  | NpBytes b =>
      Some (string_of_list_byte (flat_map Utf8.render (Utf8.run Utf8.Start b)))
  | _ => None
  end.

Definition property_of (kv : pyval * pyval) : PropertyValue :=
  mkPropertyValue "PropertyValue" (decoded (fst kv)) (decoded (snd kv)).

Definition entry_for (r : role) (i : Info) : VariableEntry :=
  entry_of (map property_of (attrs i)) i (role_tag r).

(** The position in [variableMeasured] of the first entry of a group. *)
Definition offset (r : role) (c : Classification) : nat :=
  match r with
  | Measure => 0
  | Dimension => length (measures c)
  | Attribute => length (measures c) + length (dimensions c)
  end.

(** The classification that [classify_datasets] returns on a file, or the
    exception that leaves it, and the store when it ends. *)
Definition returned (rt : Runtime) (f : h5file) : exn + Classification :=
  fst (classify_datasets rt f empty_store).

Definition final_store (rt : Runtime) (f : h5file) : Store :=
  snd (classify_datasets rt f empty_store).

(** All bytes below 0x80. *)
Definition all_ascii (b : list byte) : bool :=
  forallb (fun x => (Byte.to_N x <? 128)%N) b.

(** The bytes of a sequence that the decoder has read but not yet emitted. *)
Definition pending_bytes (st : Utf8.dstate) : list byte :=
  match st with
  | Utf8.Start => []
  | Utf8.Pending seen _ _ _ => seen
  end.

(** ** Sample runtimes and files for the examples *)

(** numpy on the type tags that the examples use: ["float64"], ["int64"] and
    ["int32"] are numbers, ["object"] and ["|S8"] are not, and [np.dtype]
    does not understand the [str()] of a compound type such as
    ["[('t', '<f8'), ('v', '<i4')]"].  Other tags do not occur in the
    examples. *)
Definition sample_issubdtype_number (tag : string) : exn + bool :=
  if String.eqb tag "float64" || String.eqb tag "int64" || String.eqb tag "int32"
  then inr true
  else if String.eqb tag "object" || String.eqb tag "|S8"
  then inr false
  else inl TypeError.

(** A runtime whose sets iterate in insertion order, and one whose sets
    iterate in the opposite order. *)
Definition rt_fifo : Runtime :=
  mkRuntime sample_issubdtype_number (fun s => s)
            (fun s x => conj (fun h => h) (fun h => h)).

Definition rt_lifo : Runtime :=
  mkRuntime sample_issubdtype_number (@rev string)
            (fun s x => conj (proj2 (in_rev s x)) (proj1 (in_rev s x))).

Definition dset (sh : option (list Z)) (ty : string) (at_ : list (pyval * pyval))
  (labels : list (option string)) : h5object :=
  IsDataset (mkDataset sh ty at_ labels).

(** Scenario A of the specification. *)
Definition scenario_A : h5file :=
  [ ("x", dset (Some [10%Z]) "float64" [] [Some ""]);
    ("y", dset (Some [10%Z; 5%Z]) "float64" [] [Some ""; Some ""]);
    ("units", dset (Some []) "object" [] []) ].

(** An NXentry with an energy axis and a table of compound type (for
    instance a scan log with a time and a counter per row), both of
    length 100. *)
Definition compound_tag : string := "[('t', '<f8'), ('v', '<i4')]".

Definition file_compound : h5file :=
  [ ("entry", Group);
    ("entry/energy", dset (Some [100%Z]) "float64" [] [Some ""]);
    ("entry/scan", dset (Some [100%Z]) compound_tag [] [Some ""]) ].

Definition energy_info : Info :=
  mkInfo "entry/energy" (Some [100%Z]) "float64" [] [Some ""].

Definition scan_info : Info :=
  mkInfo "entry/scan" (Some [100%Z]) compound_tag [] [Some ""].

(** The same axis next to a dataset with a null dataspace (what h5py
    writes for [h5py.Empty]): its shape is [None]. *)
Definition file_null : h5file :=
  [ ("entry/energy", dset (Some [100%Z]) "float64" [] [Some ""]);
    ("entry/comment", dset None "object" [] []) ].

Definition comment_info : Info :=
  mkInfo "entry/comment" None "object" [] [].

(** A rank-1 array of strings inside a group whose name contains "time". *)
Definition file_time : h5file :=
  [ ("timeseries", Group);
    ("timeseries/label", dset (Some [3%Z]) "object" [] [Some ""]) ].

Definition label_info : Info :=
  mkInfo "timeseries/label" (Some [3%Z]) "object" [] [Some ""].

(** A file that holds groups and no dataset. *)
Definition file_groups : h5file :=
  [ ("entry", Group); ("entry/data", Group) ].

(** Scenario C of the specification: a rank-2 numeric node with a label on
    one axis. *)
Definition scenario_C : h5file :=
  [ ("temperature_time", dset (Some [4%Z; 4%Z]) "float64" [] [Some "t"; Some ""]) ].

Definition temperature_info : Info :=
  mkInfo "temperature_time" (Some [4%Z; 4%Z]) "float64" [] [Some "t"; Some ""].

Definition y_info : Info :=
  mkInfo "y" (Some [10%Z; 5%Z]) "float64" [] [Some ""; Some ""].

Definition x_info : Info :=
  mkInfo "x" (Some [10%Z]) "float64" [] [Some ""].

(** Scenario D of the specification: attributes with byte-string values,
    one of them not valid UTF-8 (Latin-1 "\xb5m"), next to attributes
    of other types. *)
Definition scenario_D_attrs : list (pyval * pyval) :=
  [ (PyStr "units", NpBytes [x65; x56]);
    (NpBytes [x6c; x65; x6e], NpBytes [xb5; x6d]);
    (PyStr "long_name", PyStr "photon energy");
    (PyStr "offset", PyFloat 3 (-1));
    (PyStr "axes", PyList [PyBytes [x78]; PyBytes [x79]]) ].

Definition scenario_D_info : Info :=
  mkInfo "entry/data/energy" (Some [100%Z]) "float64" scenario_D_attrs [Some ""].

Definition scenario_D : Classification :=
  mkClassification [] [scenario_D_info] [].

(** The document of a run that found no dataset. *)
Definition empty_document (dataset_name : string) : JsonLd :=
  {| ld_context := [("@vocab", "https://schema.org/");
                    ("ddi", "https://ddi-alliance.org/ns/cdi#")];
     ld_type := "Dataset";
     ld_name := dataset_name;
     variableMeasured := [] |}.

(** Two axes of different lengths and an array aligned with both: the
    candidate set has two elements, so that the two sample runtimes walk
    it in different orders. *)
Definition file_two_axes : h5file :=
  [ ("x", dset (Some [10%Z]) "float64" [] [Some ""]);
    ("t", dset (Some [7%Z]) "object" [] [Some ""]);
    ("y", dset (Some [7%Z; 10%Z]) "int32" [] [Some ""; Some ""]);
    ("note", dset None "object" [] []) ].

(** ** Further sample files *)

(** A file without any rank-1 or labelled dataset: a scalar, an image and
    a dataset with a null dataspace. *)
Definition file_no_axis : h5file :=
  [ ("entry", Group);
    ("entry/title", dset (Some []) "object" [] []);
    ("entry/image", dset (Some [4%Z; 4%Z]) "float64" [] [Some ""; Some ""]);
    ("entry/empty", dset None "float64" [] []) ].

(** A dataset with an attribute that holds an array of fixed-length
    strings and one that holds a scalar of the same type. *)
Definition labelled_dataset : Dataset :=
  mkDataset (Some [10%Z]) "float64"
    [ (PyStr "axes", NdArray [NpBytes [x78]; NpBytes [x79]]);
      (PyStr "units", NpBytes [x65; x56]) ]
    [Some ""].

(** ** Further descriptions of the loops *)

(** What the visitor adds to the collection for one visited object whose
    name it has not seen before. *)
Definition visited_entry (no : string * h5object) : list (string * Info) :=
  match snd no with
  | IsDataset d => [(fst no, info_of (fst no) d)]
  | Group => []
  end.

(** The condition under which the [try] block of the classification loop
    raises for the descriptor stored under [n]: it is a candidate and numpy
    does not understand its type tag, or it has no shape while some
    candidate has a non-empty shape. *)
Definition raises (rt : Runtime) (st : Store) (n : string) (i : Info) : Prop :=
  (In n (dim_candidates st) /\ exists e, issubdtype_number rt (dtype i) = inl e)
  \/ (shape i = None
      /\ exists c ci x rest,
           In c (dim_candidates st) /\ In (c, ci) (datasets_info st)
           /\ shape ci = Some (x :: rest)).

(** Two descriptors with the same path, shape, type tag and axis labels:
    they may differ in the field ["attrs"] only. *)
Definition same_but_attrs_field (i j : Info) : Prop :=
  path i = path j /\ shape i = shape j /\ dtype i = dtype j /\ dims i = dims j.

(** Two visited objects of the same name and kind for which [obj.shape],
    [str(obj.dtype)] and the labels of [obj.dims] are the same: they may
    differ in what [obj.attrs.items()] yields.  In the file the labels are
    kept in the attribute DIMENSION_LABELS: two datasets that differ in that
    attribute have different labels and are not related here. *)
Definition same_visit_but_attrs_items (no no' : string * h5object) : Prop :=
  fst no = fst no'
  /\ match snd no, snd no' with
     | Group, Group => True
     | IsDataset d, IsDataset d' =>
         ds_shape d = ds_shape d' /\ ds_dtype d = ds_dtype d' /\ ds_dims d = ds_dims d'
     | _, _ => False
     end.

Definition same_entry_but_attrs_field (ni ni' : string * Info) : Prop :=
  fst ni = fst ni' /\ same_but_attrs_field (snd ni) (snd ni').

(** Scenario A with attributes on every dataset and the same (empty)
    labels. *)
Definition scenario_A_with_attrs : h5file :=
  [ ("x", dset (Some [10%Z]) "float64" [(PyStr "units", NpBytes [x65; x56])] [Some ""]);
    ("y", dset (Some [10%Z; 5%Z]) "float64" [(PyStr "signal", PyInt 1)] [Some ""; Some ""]);
    ("units", dset (Some []) "object" [(PyStr "time", PyStr "time")] []) ].

(** A decoder state is reached from [Start] by reading the bytes it holds
    back. *)
Definition utf8_reached (st : Utf8.dstate) : Prop :=
  forall rest, Utf8.run Utf8.Start (pending_bytes st ++ rest) = Utf8.run st rest.

(** An item whose rendering is decoded as one scalar. *)
Definition utf8_clean (i : Utf8.item) : Prop :=
  forall rest,
    Utf8.run Utf8.Start (Utf8.render i ++ rest)
    = Utf8.Scalar (Utf8.render i) :: Utf8.run Utf8.Start rest.

(** A descriptor without shape. *)
Definition no_shape (ni : string * Info) : bool :=
  match shape (snd ni) with
  | None => true
  | Some _ => false
  end.

(** A string of ASCII characters only. *)
Fixpoint ascii_string (s : string) : bool :=
  match s with
  | EmptyString => true
  | String c r => (nat_of_ascii c <? 128)%nat && ascii_string r
  end.

Definition ascii_label (d : option string) : bool :=
  match d with
  | None => true
  | Some l => ascii_string l
  end.

(** The strings that the two loops print, the paths and the axis labels,
    are all ASCII: a standard output of any usual encoding can write them.
    [print] never fails in this model; this condition names the collections
    for which the model is faithful in that respect. *)
Definition printable (di : list (string * Info)) : bool :=
  forallb (fun ni => ascii_string (fst ni) && forallb ascii_label (dims (snd ni))) di.

(** * [languages/python/lib/xdi.py]

    The module is Python 2: a [str] is a byte string, modelled as a Rocq
    [string], and [str.lower()] changes the ASCII letters only (C
    locale).  The strings that the XDI library hands over through
    [c_char_p] are taken to be present (no NULL pointer). *)

Module Xdi.

(** ** [add_dot2path] *)

(** What [add_dot2path] reads and writes: [os.name], [os.environ], and
    the value of [os.path.abspath(os.curdir)]. *)
Record Os : Type := mkOs {
  os_name : string;
  environ : list (string * string);
  abs_curdir : string
}.

(** [d.get(k, default)]. *)
Definition dict_get_default (k default : string) (d : list (string * string)) : string :=
  match PyDict.get k d with
  | inr v => v
  | inl _ => default
  end.

(** The separator of the entries of [PATH]. *)
Definition path_sep (os : Os) : ascii :=
  if String.eqb (os_name os) "nt" then ";"%char else ":"%char.

Definition add_dot2path (os : Os) : Os :=
  let sep := path_sep os in
  let paths := PyStr.split sep (dict_get_default "PATH" "" (environ os)) in
  let paths := abs_curdir os :: paths in
  mkOs (os_name os)
       (PyDict.set "PATH" (String.concat (String sep EmptyString) paths) (environ os))
       (abs_curdir os).

(** ** The metadata loop of [XDIFile.read] *)

(** [self.attrs]: a dictionary of dictionaries, family, then keyword. *)
Definition meta : Type := list (string * list (string * string)).

(** [k in d]. *)
Definition dict_has {V} (k : string) (d : list (string * V)) : bool :=
  existsb (fun kv => String.eqb (fst kv) k) d.

(** [zip(a, b, c)]: as long as the shortest of the three. *)
Fixpoint zip3 (a b c : list string) : list (string * string * string) :=
  match a, b, c with
  | x :: a', y :: b', z :: c' => (x, y, z) :: zip3 a' b' c'
  | _, _, _ => []
  end.

(** The body of the loop over [zip(mfams, mkeys, mvals)]. *)
Definition meta_body (t : string * string * string) : M meta unit :=
  let fam := PyStr.lower (fst (fst t)) in
  let key := PyStr.lower (snd (fst t)) in
  let val := snd t in
  known <- gets (dict_has fam) ;;
  when (negb known) (modify (PyDict.set fam [])) ;;
  attrs <- gets (fun a => a) ;;
  inner <- lift (PyDict.get fam attrs) ;;
  modify (PyDict.set fam (PyDict.set key val inner)).

Definition read_attrs (mfams mkeys mvals : list string) : M meta unit :=
  modify (fun _ => []) ;;
  for_each (zip3 mfams mkeys mvals) meta_body.

(** What one turn of the loop does to [self.attrs]. *)
Definition meta_step (attrs : meta) (t : string * string * string) : meta :=
  let fam := PyStr.lower (fst (fst t)) in
  let key := PyStr.lower (snd (fst t)) in
  let attrs1 := if dict_has fam attrs then attrs else PyDict.set fam [] attrs in
  match PyDict.get fam attrs1 with
  | inr inner => PyDict.set fam (PyDict.set key (snd t) inner) attrs1
  | inl _ => attrs1
  end.

(** [self.attrs[fam][key]]. *)
Definition lookup (fam key : string) (attrs : meta) : exn + string :=
  bind_r (PyDict.get fam attrs) (fun inner => PyDict.get key inner).

(** ** The units loop of [XDIFile.read] *)

(** The characters that [str.strip()] removes. *)
Definition is_space (c : ascii) : bool :=
  let n := nat_of_ascii c in
  (n =? 32)%nat || ((9 <=? n)%nat && (n <=? 13)%nat).

Fixpoint lstrip (s : string) : string :=
  match s with
  | EmptyString => EmptyString
  | String c r => if is_space c then lstrip r else s
  end.

Fixpoint rstrip (s : string) : string :=
  match s with
  | EmptyString => EmptyString
  | String c r =>
      match rstrip r with
      | EmptyString => if is_space c then EmptyString else String c EmptyString
      | r' => String c r'
      end
  end.

Definition strip (s : string) : string := rstrip (lstrip s).

(** [s[n:]]. *)
Fixpoint skip (n : nat) (s : string) : string :=
  match n, s with
  | O, _ => s
  | S _, EmptyString => EmptyString
  | S n', String _ r => skip n' r
  end.

(** The two sides of the first occurrence of [sep] in [s], if there is
    one. *)
Fixpoint split_first (sep s : string) : option (string * string) :=
  if String.prefix sep s then Some (EmptyString, skip (String.length sep) s)
  else match s with
       | EmptyString => None
       | String c r =>
           match split_first sep r with
           | Some (a, b) => Some (String c a, b)
           | None => None
           end
       end.

(** [s.split(sep, 1)] for a separator that is not empty. *)
Definition split1 (sep s : string) : list string :=
  match split_first sep s with
  | Some (a, b) => [a; b]
  | None => [s]
  end.

(** The exception of an assignment [a, b = l] when [l] has not two
    items. *)
Inductive unpack_error : Type := ValueError.

(** [unit, addr = l]. *)
Definition unpack2 (l : list string) : unpack_error + string * string :=
  match l with
  | [a; b] => inr (a, b)
  | _ => inl ValueError
  end.

(** One turn of the loop over [arr_units]: the unit and the address that
    are appended. *)
Definition unit_addr (unit : string) : unpack_error + string * string :=
  if PyStr.contains "||" unit
  then unpack2 (map strip (split1 "||" unit))
  else inr (unit, EmptyString).

(** The loop: [self.array_units] and [self.array_addrs] when it ends. *)
Fixpoint read_units (arr_units array_units array_addrs : list string)
  : unpack_error + list string * list string :=
  match arr_units with
  | [] => inr (array_units, array_addrs)
  | unit :: rest =>
      match unit_addr unit with
      | inr (u, a) => read_units rest (array_units ++ [u]) (array_addrs ++ [a])
      | inl e => inl e
      end
  end.

(** The last triple of the metadata whose family and keyword, in lower
    case, are [fam] and [key]. *)
Definition last_entry (fam key : string) (triples : list (string * string * string))
  : option (string * string * string) :=
  find (fun t => String.eqb (PyStr.lower (fst (fst t))) fam
                 && String.eqb (PyStr.lower (snd (fst t))) key)
       (rev triples).

(** What the metadata loop keeps true of [self.attrs]: no family and no
    keyword twice, every family and keyword in lower case, no family without
    a keyword, and every value taken from a triple of that family and
    keyword. *)
Definition meta_ok (triples : list (string * string * string)) (attrs : meta) : Prop :=
  NoDup (map fst attrs)
  /\ forall fam inner,
       In (fam, inner) attrs ->
       PyStr.lower fam = fam
       /\ inner <> []
       /\ NoDup (map fst inner)
       /\ forall key v,
            In (key, v) inner ->
            PyStr.lower key = key
            /\ exists f k, In (f, k, v) triples
                           /\ PyStr.lower f = fam /\ PyStr.lower k = key.

(** The unit and the address of one entry of [arr_units]. *)
Definition unit_addr_of (unit : string) : string * string :=
  match split_first "||" unit with
  | Some (a, b) => (strip a, strip b)
  | None => (unit, EmptyString)
  end.

(** Sample inputs. *)
Definition posix : Os :=
  mkOs "posix" [("HOME", "/home/xas"); ("PATH", "/usr/bin:/bin")] "/data/xdi".

Definition posix_no_path : Os := mkOs "posix" [("HOME", "/home/xas")] "/data/xdi".

Definition sample_families : list string := ["Mono"; "Beamline"; "mono"].
Definition sample_keywords : list string := ["d_spacing"; "Name"; "D_Spacing"].
Definition sample_values : list string := ["3.13"; "13ID"; "3.1356"].

Definition sample_units : list string :=
  ["eV"; " counts || /entry/i0 "; "a|||b"].

End Xdi.

(** * Properties *)

(** ** The monad and the containers *)

Lemma for_each_fold {S X} (body : X -> M S unit) (step : S -> X -> S) :
  (forall x st, body x st = (inr tt, step st x)) ->
  forall xs st, for_each xs body st = (inr tt, fold_left step xs st).
Proof.
  intros Hbody xs; induction xs as [|x xs IH]; intros st; simpl.
  - reflexivity.
  - unfold bind. rewrite Hbody. apply IH.
Qed.

Lemma fold_left_snoc {A B} (f : A -> B -> A) (l : list B) (x : B) (a : A) :
  fold_left f (l ++ [x]) a = f (fold_left f l a) x.
Proof. rewrite fold_left_app. reflexivity. Qed.

Module PyDictFacts.

Lemma set_keys {V} (k : string) (v : V) (d : list (string * V)) :
  forall k', In k' (map fst (PyDict.set k v d)) <-> k' = k \/ In k' (map fst d).
Proof.
  induction d as [|[k0 v0] r IH]; intros k'; simpl.
  - intuition.
  - destruct (String.eqb_spec k0 k) as [->|Hne]; simpl.
    + intuition.
    + rewrite IH. intuition.
Qed.

Lemma set_NoDup {V} (k : string) (v : V) (d : list (string * V)) :
  NoDup (map fst d) -> NoDup (map fst (PyDict.set k v d)).
Proof.
  induction d as [|[k0 v0] r IH]; simpl; intros Hnd.
  - constructor; [intros [] | constructor].
  - inversion Hnd as [|? ? Hnotin Hr]; subst.
    destruct (String.eqb_spec k0 k) as [->|Hne]; simpl.
    + constructor; assumption.
    + constructor; [|auto].
      rewrite set_keys. intros [->|Hin]; [congruence | contradiction].
Qed.

Lemma set_In {V} (k : string) (v : V) (d : list (string * V)) :
  forall k' v', In (k', v') (PyDict.set k v d) ->
                (k' = k /\ v' = v) \/ In (k', v') d.
Proof.
  induction d as [|[k0 v0] r IH]; intros k' v'; simpl.
  - intros [H|[]]; inversion H; auto.
  - destruct (String.eqb_spec k0 k) as [->|Hne]; simpl.
    + intros [H|H]; [inversion H; auto | auto].
    + intros [H|H]; [auto|]. apply IH in H. intuition.
Qed.

Lemma get_In {V} (k : string) (v : V) (d : list (string * V)) :
  NoDup (map fst d) -> In (k, v) d -> PyDict.get k d = inr v.
Proof.
  induction d as [|[k0 v0] r IH]; simpl; intros Hnd Hin; [contradiction|].
  inversion Hnd as [|? ? Hnotin Hr]; subst.
  destruct Hin as [H|H].
  - inversion H; subst. rewrite String.eqb_refl. reflexivity.
  - destruct (String.eqb_spec k0 k) as [->|Hne].
    + exfalso. apply Hnotin. apply (in_map fst) in H. exact H.
    + auto.
Qed.

Lemma get_inr {V} (k : string) (v : V) (d : list (string * V)) :
  PyDict.get k d = inr v -> In (k, v) d.
Proof.
  induction d as [|[k0 v0] r IH]; simpl; [discriminate|].
  destruct (String.eqb_spec k0 k) as [->|Hne].
  - intros H; inversion H; auto.
  - auto.
Qed.

End PyDictFacts.

Module PySetFacts.

Lemma mem_In (x : string) (s : list string) : PySet.mem x s = true <-> In x s.
Proof.
  unfold PySet.mem. rewrite existsb_exists. split.
  - intros (y & Hy & E). apply String.eqb_eq in E. subst. exact Hy.
  - intros H. exists x. split; [exact H | apply String.eqb_refl].
Qed.

Lemma add_In (x : string) (s : list string) :
  forall y, In y (PySet.add x s) <-> y = x \/ In y s.
Proof.
  intros y. unfold PySet.add. destruct (PySet.mem x s) eqn:E.
  - apply mem_In in E. split; [auto | intros [->|H]; auto].
  - rewrite in_app_iff. simpl. intuition.
Qed.

Lemma add_idem (x : string) (s : list string) :
  PySet.add x (PySet.add x s) = PySet.add x s.
Proof.
  unfold PySet.add at 1.
  assert (H : PySet.mem x (PySet.add x s) = true)
    by (apply mem_In, add_In; auto).
  rewrite H. reflexivity.
Qed.

End PySetFacts.

(** ** The loops of [classify_datasets] *)

Lemma store_eta (st : Store) :
  mkStore (classification st) (datasets_info st) (dim_candidates st) (stdout st) = st.
Proof. destruct st; reflexivity. Qed.

Lemma visitor_step (no : string * h5object) (st : Store) :
  visitor (fst no) (snd no) st
  = (inr tt, set_datasets_info (visit_step (datasets_info st) no) st).
Proof.
  unfold visitor, visit_step. destruct (snd no) as [|d]; simpl.
  - unfold ret, set_datasets_info. rewrite store_eta. reflexivity.
  - reflexivity.
Qed.

Lemma visit_fold (f : h5file) (st : Store) :
  fold_left (fun s no => set_datasets_info (visit_step (datasets_info s) no) s) f st
  = set_datasets_info (fold_left visit_step f (datasets_info st)) st.
Proof.
  revert st; induction f as [|no f IH]; intros st; simpl.
  - unfold set_datasets_info. rewrite store_eta. reflexivity.
  - rewrite IH. reflexivity.
Qed.

Lemma add_candidate_run (name : string) (st : Store) :
  add_candidate name st
  = (inr tt, set_dim_candidates (PySet.add name (dim_candidates st)) st).
Proof. reflexivity. Qed.

Lemma label_loop (name : string) (labels : list (option string)) (st : Store) :
  for_each labels (fun d => when (label_present d) (add_candidate name)) st
  = (inr tt,
     if existsb label_present labels
     then set_dim_candidates (PySet.add name (dim_candidates st)) st
     else st).
Proof.
  revert st. induction labels as [|d labels IH]; intros st; simpl.
  - reflexivity.
  - unfold bind. destruct (label_present d); cbn [when].
    + rewrite add_candidate_run, IH.
      destruct (existsb label_present labels); [|reflexivity].
      unfold set_dim_candidates; simpl.
      rewrite PySetFacts.add_idem. reflexivity.
    + apply IH.
Qed.

Lemma candidate_body_step (ni : string * Info) (st : Store) :
  candidate_body (fst ni) (snd ni) st = (inr tt, candidate_step st ni).
Proof.
  destruct ni as [name info]; simpl.
  unfold candidate_body, candidate_step, is_candidate, try_except, bind, lift.
  simpl. destruct (shape info) as [s|]; simpl.
  - destruct (Z.of_nat (length s) =? 1)%Z; cbn [when].
    + rewrite add_candidate_run, label_loop.
      destruct (existsb label_present (dims info)); [|reflexivity].
      unfold set_dim_candidates; simpl. rewrite PySetFacts.add_idem. reflexivity.
    + unfold ret. rewrite label_loop.
      destruct (existsb label_present (dims info)); reflexivity.
  - reflexivity.
Qed.

Lemma classify_body_step (rt : Runtime) (ni : string * Info) (st : Store) :
  classify_body rt (fst ni) (snd ni) st = (inr tt, classify_step rt st ni).
Proof.
  destruct ni as [name info]; simpl.
  unfold classify_body, classify_step, node_role.
  unfold bind at 1. unfold print at 1, modify at 1.
  unfold try_except, bind at 1, gets at 1.
  cbn [dim_candidates datasets_info fst snd].
  destruct (PySet.mem name (dim_candidates st)).
  - unfold bind, lift.
    destruct (issubdtype_number rt (dtype info)) as [e|numeric]; simpl.
    + reflexivity.
    + destruct (numeric || PyStr.contains "time" (PyStr.lower name)); reflexivity.
  - unfold bind, lift, gets. cbn [dim_candidates datasets_info].
    destruct (dim_lens (datasets_info st) (set_iter rt (dim_candidates st)))
      as [e|lens]; simpl; [reflexivity|].
    destruct (any_aligned (shape info) lens) as [e|aligned]; simpl; [reflexivity|].
    destruct aligned; reflexivity.
Qed.

Lemma candidate_fold (items : list (string * Info)) (st : Store) :
  fold_left candidate_step items st
  = mkStore (classification st) (datasets_info st)
      (fold_left (fun s ni => if is_candidate (snd ni) then PySet.add (fst ni) s else s)
                 items (dim_candidates st))
      (stdout st ++ candidate_log items).
Proof.
  revert st; induction items as [|ni items IH]; intros st; simpl.
  - rewrite app_nil_r. symmetry. apply store_eta.
  - rewrite IH. unfold candidate_step.
    destruct (shape (snd ni)) as [s|] eqn:Hs.
    + unfold diagnostic. destruct (is_candidate (snd ni)); reflexivity.
    + assert (Hc : is_candidate (snd ni) = false)
        by (unfold is_candidate; rewrite Hs; reflexivity).
      rewrite Hc. cbn [classification datasets_info dim_candidates stdout].
      rewrite <- app_assoc. unfold diagnostic. rewrite Hs. reflexivity.
Qed.

Lemma group_append_to (r r' : role) (i : Info) (c : Classification) :
  group r (append_to r' i c)
  = group r c ++ (if role_eqb r' r then [i] else []).
Proof. destruct r, r'; simpl; rewrite ?app_nil_r; reflexivity. Qed.

Lemma classification_ext (c c' : Classification) :
  (forall r, group r c = group r c') -> c = c'.
Proof.
  intros H. destruct c, c'.
  pose proof (H Measure) as Hm. pose proof (H Dimension) as Hd.
  pose proof (H Attribute) as Ha. simpl in *. congruence.
Qed.

Lemma classify_fold (rt : Runtime) (items : list (string * Info)) (st : Store) :
  let di := datasets_info st in
  let cands := dim_candidates st in
  let st' := fold_left (classify_step rt) items st in
  datasets_info st' = di
  /\ dim_candidates st' = cands
  /\ (forall r, group r (classification st')
                = group r (classification st)
                  ++ map snd (filter (has_role rt di cands r) items))
  /\ stdout st' = stdout st ++ flat_map (classify_lines rt di cands) items.
Proof.
  revert st; induction items as [|ni items IH]; intros st; simpl.
  - repeat split; intros; rewrite app_nil_r; reflexivity.
  - specialize (IH (classify_step rt st ni)).
    assert (Hdi : datasets_info (classify_step rt st ni) = datasets_info st)
      by (unfold classify_step; destruct node_role; reflexivity).
    assert (Hca : dim_candidates (classify_step rt st ni) = dim_candidates st)
      by (unfold classify_step; destruct node_role; reflexivity).
    simpl in IH. rewrite Hdi, Hca in IH.
    destruct IH as (H1 & H2 & H3 & H4).
    repeat split; auto.
    + intros r. rewrite H3. unfold has_role at 2, classify_step.
      destruct (node_role rt (datasets_info st) (dim_candidates st) (fst ni) (snd ni))
        as [e|r']; simpl.
      * reflexivity.
      * rewrite group_append_to, <- app_assoc.
        destruct (role_eqb r' r); reflexivity.
    + rewrite H4. unfold classify_lines at 2, classify_step.
      destruct (node_role rt (datasets_info st) (dim_candidates st) (fst ni) (snd ni))
        as [e|r']; simpl; rewrite <- ?app_assoc; reflexivity.
Qed.

(** The run of [classify_datasets] from a store with nothing printed yet:
    it returns, and the store it leaves holds the collection, the candidate
    set, the classification that is returned, and the lines printed. *)
Lemma classify_datasets_run (rt : Runtime) (f : h5file) :
  classify_datasets rt f empty_store
  = (inr (classified rt f),
     mkStore (classified rt f) (collect f) (candidates (collect f))
             (candidate_log (collect f) ++ classify_log rt (collect f))).
Proof.
  unfold classify_datasets.
  unfold bind at 1, modify at 1. unfold bind at 1, modify at 1.
  unfold bind at 1.
  rewrite (for_each_fold _ _ visitor_step), visit_fold.
  unfold bind at 1, modify at 1. unfold bind at 1, gets at 1.
  cbn [set_classification set_datasets_info set_dim_candidates empty_store
       classification datasets_info dim_candidates stdout].
  fold (collect f).
  unfold bind at 1.
  rewrite (for_each_fold _ _ candidate_body_step), candidate_fold.
  cbn [classification datasets_info dim_candidates stdout app].
  fold (candidates (collect f)).
  unfold bind at 1, gets at 1. cbn [datasets_info].
  unfold bind at 1.
  rewrite (for_each_fold _ _ (classify_body_step rt)).
  unfold gets.
  match goal with
  | |- context [fold_left (classify_step rt) ?items ?st] =>
      destruct (classify_fold rt items st) as (H1 & H2 & H3 & H4);
      set (stF := fold_left (classify_step rt) items st) in *
  end.
  cbn [classification datasets_info dim_candidates stdout] in *.
  assert (Hc : classification stF = classified rt f).
  { apply classification_ext. intros r. rewrite H3. destruct r; reflexivity. }
  rewrite <- (store_eta stF), H1, H2, H4, Hc. reflexivity.
Qed.

(** ** The descriptor collection *)


Lemma visit_step_keyed (di : list (string * Info)) (no : string * h5object) :
  keyed di -> keyed (visit_step di no).
Proof.
  intros [Hnd Hp]. unfold visit_step. destruct (snd no) as [|d]; [split; assumption|].
  split.
  - apply PyDictFacts.set_NoDup, Hnd.
  - intros n i Hin. apply PyDictFacts.set_In in Hin.
    destruct Hin as [[-> ->]|Hin]; [reflexivity | auto].
Qed.

Lemma fold_visit_keyed (f : h5file) (di : list (string * Info)) :
  keyed di -> keyed (fold_left visit_step f di).
Proof.
  revert di; induction f as [|no f IH]; intros di H; simpl; [exact H|].
  apply IH, visit_step_keyed, H.
Qed.

Lemma collect_keyed (f : h5file) : keyed (collect f).
Proof.
  apply fold_visit_keyed. split; [constructor | intros n i []].
Qed.

Lemma collect_from_file (f : h5file) (n : string) (i : Info) :
  In (n, i) (collect f) -> exists d, In (n, IsDataset d) f /\ i = info_of n d.
Proof.
  unfold collect.
  assert (G : forall di,
             In (n, i) (fold_left visit_step f di) ->
             In (n, i) di \/ exists d, In (n, IsDataset d) f /\ i = info_of n d).
  { induction f as [|[n0 o] f IH]; intros di H; simpl in *; [auto|].
    apply IH in H. destruct H as [H|(d & Hd & E)].
    - unfold visit_step in H; simpl in H. destruct o as [|d0]; [auto|].
      apply PyDictFacts.set_In in H. destruct H as [[-> ->]|H]; [|auto].
      right. exists d0. auto.
    - right. exists d. auto. }
  intros H. apply G in H. destruct H as [[]|H]; exact H.
Qed.

Lemma keyed_same_info (di : list (string * Info)) (n n' : string) (i : Info) :
  keyed di -> In (n, i) di -> In (n', i) di -> n' = n.
Proof.
  intros [_ Hp] H H'. apply Hp in H, H'. congruence.
Qed.

Lemma keyed_NoDup_infos (di : list (string * Info)) :
  keyed di -> NoDup (map snd di).
Proof.
  intros [Hnd Hp]. induction di as [|[n i] di IH]; simpl in *; [constructor|].
  inversion Hnd as [|? ? Hnotin Hr]; subst.
  constructor.
  - intros Hin. apply in_map_iff in Hin. destruct Hin as ([n' i'] & E & Hin).
    simpl in E; subst i'.
    assert (path i = n) by (apply Hp; auto).
    assert (path i = n') by (apply Hp; auto).
    apply Hnotin. apply in_map_iff. exists (n', i). split; [simpl; congruence | exact Hin].
  - apply IH; [exact Hr | intros; apply Hp; auto].
Qed.

(** ** The candidate set *)

Lemma label_present_spec (d : option string) :
  label_present d = true <-> exists l, d = Some l /\ l <> "".
Proof.
  unfold label_present, truthy_label, not_empty_str. destruct d as [l|]; simpl.
  - destruct (String.eqb_spec l ""); simpl; split.
    + discriminate.
    + intros (l' & E & Hne). inversion E; subst. contradiction.
    + intros _. exists l. auto.
    + reflexivity.
  - split; [discriminate | intros (l & E & _); discriminate].
Qed.

Lemma is_candidate_spec (i : Info) :
  is_candidate i = true
  <-> exists s, shape i = Some s
                /\ (length s = 1%nat \/ exists l, In (Some l) (dims i) /\ l <> "").
Proof.
  unfold is_candidate. destruct (shape i) as [s|].
  - rewrite orb_true_iff, Z.eqb_eq, existsb_exists. split.
    + intros [H|(d & Hd & Hp)]; exists s; split; auto.
      * left. lia.
      * right. apply label_present_spec in Hp. destruct Hp as (l & -> & Hne). eauto.
    + intros (s' & E & [H|(l & Hl & Hne)]); inversion E; subst.
      * left. lia.
      * right. exists (Some l). split; [exact Hl|]. apply label_present_spec. eauto.
  - split; [discriminate | intros (s & E & _); discriminate].
Qed.

Lemma candidates_fold_In (items : list (string * Info)) (s0 : list string) (n : string) :
  In n (fold_left (fun s ni => if is_candidate (snd ni) then PySet.add (fst ni) s else s)
                  items s0)
  <-> In n s0 \/ exists i, In (n, i) items /\ is_candidate i = true.
Proof.
  revert s0; induction items as [|[n0 i0] items IH]; intros s0; simpl.
  - split; [auto | intros [H|(i & [] & _)]; exact H].
  - rewrite IH. destruct (is_candidate i0) eqn:E.
    + rewrite PySetFacts.add_In. split.
      * intros [[->|H]|(i & Hi & Hc)]; eauto.
      * intros [H|(i & [Hi|Hi] & Hc)]; eauto. inversion Hi; subst. auto.
    + split.
      * intros [H|(i & Hi & Hc)]; eauto.
      * intros [H|(i & [Hi|Hi] & Hc)]; eauto. inversion Hi; subst. congruence.
Qed.

Lemma candidates_In (di : list (string * Info)) (n : string) :
  In n (candidates di) <-> exists i, In (n, i) di /\ is_candidate i = true.
Proof.
  unfold candidates. rewrite candidates_fold_In. split; [intros [[]|H]; exact H | auto].
Qed.

Lemma candidate_of_entry (di : list (string * Info)) (n : string) (i : Info) :
  keyed di -> In (n, i) di ->
  (In n (candidates di) <-> is_candidate i = true).
Proof.
  intros [Hnd Hp] Hin. rewrite candidates_In. split.
  - intros (i' & Hin' & Hc).
    assert (E : inr i' = inr i :> exn + Info).
    { rewrite <- (PyDictFacts.get_In n i' di Hnd Hin').
      apply PyDictFacts.get_In; assumption. }
    inversion E; subst. exact Hc.
  - intros Hc. eauto.
Qed.

(** ** The classification of one descriptor *)

Lemma dim_lens_ok (di : list (string * Info)) (cs : list string) :
  NoDup (map fst di) ->
  (forall c, In c cs -> exists i, In (c, i) di) ->
  exists lens,
    dim_lens di cs = inr lens
    /\ forall x, In x lens
                 <-> exists c i rest, In c cs /\ In (c, i) di /\ shape i = Some (x :: rest).
Proof.
  intros Hnd. induction cs as [|c cs IH]; intros Hall.
  - exists []. split; [reflexivity|]. intros x; split; [intros [] | intros (c & i & r & [] & _)].
  - destruct IH as (lens & Hl & Hx); [intros; apply Hall; right; assumption|].
    destruct (Hall c) as (i & Hi); [left; reflexivity|].
    assert (Hget : PyDict.get c di = inr i) by (apply PyDictFacts.get_In; assumption).
    assert (Huniq : forall i', In (c, i') di -> i' = i).
    { intros i' Hi'. apply (PyDictFacts.get_In c i' di Hnd) in Hi'. congruence. }
    simpl. unfold shape_of. rewrite Hget. simpl.
    destruct (shape i) as [[|x0 rest0]|] eqn:Hs; simpl.
    + exists lens. split; [exact Hl|]. intros x. rewrite Hx. split.
      * intros (c' & i' & r & Hc & Hi' & Hs'). exists c', i', r. auto.
      * intros (c' & i' & r & [->|Hc] & Hi' & Hs'); [|eauto 6].
        apply Huniq in Hi'. subst. congruence.
    + rewrite Hl. simpl. exists (x0 :: lens). split; [reflexivity|].
      intros x. simpl. rewrite Hx. split.
      * intros [<-|(c' & i' & r & Hc & Hi' & Hs')]; [exists c, i, rest0 | exists c', i', r]; auto.
      * intros (c' & i' & r & [->|Hc] & Hi' & Hs'); [|eauto 7].
        apply Huniq in Hi'. subst. left. congruence.
    + exists lens. split; [exact Hl|]. intros x. rewrite Hx. split.
      * intros (c' & i' & r & Hc & Hi' & Hs'). exists c', i', r. auto.
      * intros (c' & i' & r & [->|Hc] & Hi' & Hs'); [|eauto 6].
        apply Huniq in Hi'. subst. congruence.
Qed.

Lemma any_aligned_some (s : list Z) (lens : list Z) :
  exists b, any_aligned (Some s) lens = inr b
            /\ (b = true <-> s <> [] /\ exists x, In x lens /\ In x s).
Proof.
  induction lens as [|x lens (b & Hb & Hspec)]; simpl.
  - exists false. split; [reflexivity|]. split; [discriminate | intros (_ & x & [] & _)].
  - destruct s as [|y s]; simpl.
    + exists b. split; [exact Hb|]. rewrite Hspec. split; intros [H _]; congruence.
    + destruct (Z.eqb x y || existsb (Z.eqb x) s) eqn:E.
      * exists true. split; [reflexivity|]. split; [intros _ | reflexivity].
        split; [discriminate|]. exists x. split; [auto|].
        apply orb_true_iff in E. destruct E as [E|E].
        -- apply Z.eqb_eq in E. subst. left. reflexivity.
        -- apply existsb_exists in E. destruct E as (z & Hz & Ez).
           apply Z.eqb_eq in Ez. subst. right. exact Hz.
      * exists b. split; [exact Hb|]. rewrite Hspec. split.
        -- intros (Hne & z & Hz & Hin). split; [exact Hne|]. exists z. auto.
        -- intros (Hne & z & [<-|Hz] & Hin).
           ++ exfalso. apply orb_false_iff in E. destruct E as [E1 E2].
              destruct Hin as [<-|Hin].
              ** rewrite Z.eqb_refl in E1. discriminate.
              ** assert (existsb (Z.eqb x) s = true); [|congruence].
                 apply existsb_exists. exists x. split; [exact Hin | apply Z.eqb_refl].
           ++ split; [exact Hne|]. exists z. auto.
Qed.

Lemma any_aligned_none (lens : list Z) :
  any_aligned None lens = match lens with [] => inr false | _ :: _ => inl TypeError end.
Proof. destruct lens; reflexivity. Qed.

Lemma filter_NoDup_infos (p : string * Info -> bool) (l : list (string * Info)) :
  NoDup (map snd l) -> NoDup (map snd (filter p l)).
Proof.
  induction l as [|ni l IH]; simpl; intros Hnd; [constructor|].
  inversion Hnd as [|? ? Hnotin Hl]; subst.
  destruct (p ni); simpl; [|auto].
  constructor; [|auto].
  intros Hin. apply Hnotin. apply in_map_iff in Hin.
  destruct Hin as (x & Ex & Hx). apply filter_In in Hx.
  apply in_map_iff. exists x. tauto.
Qed.

Section Roles.

Variable rt : Runtime.
Variable f : h5file.

Lemma candidates_have_entries :
  forall c, In c (set_iter rt (candidates (collect f))) ->
            exists i, In (c, i) (collect f).
Proof.
  intros c Hc. apply set_iter_elements in Hc. apply candidates_In in Hc.
  destruct Hc as (i & Hi & _). eauto.
Qed.

(** The first-axis lengths of the candidates: the list is built without
    an exception, and holds [x] exactly when some candidate has a
    non-empty shape that starts with [x]. *)
Lemma candidate_lens :
  exists lens,
    dim_lens (collect f) (set_iter rt (candidates (collect f))) = inr lens
    /\ forall x, In x lens
                 <-> exists c i rest,
                       In c (candidates (collect f)) /\ In (c, i) (collect f)
                       /\ shape i = Some (x :: rest).
Proof.
  destruct (dim_lens_ok (collect f) (set_iter rt (candidates (collect f))))
    as (lens & Hl & Hx).
  - apply collect_keyed.
  - apply candidates_have_entries.
  - exists lens. split; [exact Hl|]. intros x. rewrite Hx. split.
    + intros (c & i & r & Hc & H). apply set_iter_elements in Hc. eauto.
    + intros (c & i & r & Hc & H). apply (set_iter_elements rt) in Hc. eauto.
Qed.

Lemma members_In (r : role) (i : Info) :
  In i (group r (classified rt f))
  <-> exists n, In (n, i) (collect f)
                /\ node_role rt (collect f) (candidates (collect f)) n i = inr r.
Proof.
  assert (E : group r (classified rt f) = members rt (collect f) r)
    by (destruct r; reflexivity).
  rewrite E. unfold members. rewrite in_map_iff. split.
  - intros ([n i'] & Ei & Hin). simpl in Ei; subst i'.
    apply filter_In in Hin. destruct Hin as [Hin Hr].
    unfold has_role in Hr. simpl in Hr.
    exists n. split; [exact Hin|].
    destruct (node_role rt (collect f) (candidates (collect f)) n i) as [e|r'];
      [discriminate|].
    destruct r, r'; simpl in Hr; congruence.
  - intros (n & Hin & Hr). exists (n, i). split; [reflexivity|].
    apply filter_In. split; [exact Hin|].
    unfold has_role. simpl. rewrite Hr. destruct r; reflexivity.
Qed.

(** No group lists a descriptor twice. *)
Lemma group_NoDup (r : role) : NoDup (group r (classified rt f)).
Proof.
  assert (E : group r (classified rt f) = members rt (collect f) r)
    by (destruct r; reflexivity).
  rewrite E. apply filter_NoDup_infos, keyed_NoDup_infos, collect_keyed.
Qed.

Lemma role_assigned (n : string) (i : Info) (r : role) :
  In (n, i) (collect f) ->
  node_role rt (collect f) (candidates (collect f)) n i = inr r ->
  assigned (classified rt f) i r.
Proof.
  intros Hin Hr. split.
  - apply members_In. eauto.
  - intros r' H. apply members_In in H. destruct H as (n' & Hin' & Hr').
    assert (n' = n) by (eapply keyed_same_info; eauto using collect_keyed).
    subst. congruence.
Qed.

Lemma raise_dropped (n : string) (i : Info) (e : exn) :
  In (n, i) (collect f) ->
  node_role rt (collect f) (candidates (collect f)) n i = inl e ->
  dropped (classified rt f) i.
Proof.
  intros Hin He r H. apply members_In in H. destruct H as (n' & Hin' & Hr').
  assert (n' = n) by (eapply keyed_same_info; eauto using collect_keyed).
  subst. congruence.
Qed.

Lemma assigned_role (n : string) (i : Info) (r : role) :
  In (n, i) (collect f) -> assigned (classified rt f) i r ->
  node_role rt (collect f) (candidates (collect f)) n i = inr r.
Proof.
  intros Hin [H _]. apply members_In in H. destruct H as (n' & Hin' & Hr').
  assert (n' = n) by (eapply keyed_same_info; eauto using collect_keyed).
  subst. exact Hr'.
Qed.

End Roles.

(** ** The UTF-8 decoder *)

Module Utf8Facts.
Import Utf8.

Lemma start_shape (b : byte) :
  (exists st, start b = ([], st) /\ pending_bytes st = [b])
  \/ start b = ([Scalar [b]], Start)
  \/ start b = ([Bad], Start).
Proof.
  unfold start.
  repeat match goal with
         | |- context [if ?c then _ else _] => destruct c
         end;
    try (left; eexists; split; [reflexivity|reflexivity]); auto.
Qed.

(** When no run of the input is undecodable, the decoder gives the input
    back unchanged. *)
Lemma run_no_bad (input : list byte) :
  forall st, existsb is_bad (run st input) = false ->
             flat_map render (run st input) = pending_bytes st ++ input.
Proof.
  induction input as [|b rest IH]; intros st H.
  - destruct st; simpl in *; [reflexivity | discriminate].
  - simpl in *. destruct (step st b) as [out st'] eqn:Hstep.
    rewrite existsb_app in H. apply orb_false_iff in H. destruct H as [Hout Hrest].
    rewrite flat_map_app, (IH st' Hrest).
    destruct st as [|seen need lo hi]; simpl in Hstep.
    + destruct (start_shape b) as [(st0 & E & Hp)|[E|E]];
        rewrite E in Hstep; inversion Hstep; subst; simpl in *.
      * rewrite Hp. reflexivity.
      * reflexivity.
      * discriminate.
    + destruct (between lo hi (Byte.to_N b)).
      * destruct need as [|[|k]]; inversion Hstep; subst; simpl;
          rewrite ?app_nil_r, <- ?app_assoc; reflexivity.
      * destruct (start b) as [out0 st0]. inversion Hstep; subst. discriminate.
Qed.

(** [errors="replace"] never raises. *)
Lemma replace_total (input : list byte) :
  exists s, decode input replace = inr s.
Proof. eexists. reflexivity. Qed.

(** Bytes that decode under [errors="strict"] decode to the same text
    under [errors="replace"], and that text is the input itself. *)
Lemma strict_replace (input : list byte) (s : string) :
  decode input strict = inr s ->
  decode input replace = inr s /\ s = string_of_list_byte input.
Proof.
  unfold decode. destruct (existsb is_bad (run Start input)) eqn:E; [discriminate|].
  intros H. split; [exact H|]. inversion H. f_equal. apply (run_no_bad input Start E).
Qed.

Lemma run_ascii (input : list byte) :
  all_ascii input = true -> run Start input = map (fun b => Scalar [b]) input.
Proof.
  induction input as [|b rest IH]; simpl; intros H; [reflexivity|].
  apply andb_true_iff in H. destruct H as [Hb Hrest].
  unfold start. rewrite Hb. simpl. rewrite IH by exact Hrest. reflexivity.
Qed.

(** ASCII text is decoded to itself whatever the error handler. *)
Lemma decode_all_ascii (input : list byte) (e : errors) :
  all_ascii input = true -> decode input e = inr (string_of_list_byte input).
Proof.
  intros H. unfold decode. rewrite (run_ascii input H).
  assert (Hbad : existsb is_bad (map (fun b => Scalar [b]) input) = false).
  { clear. induction input; simpl; auto. }
  assert (Hr : flat_map render (map (fun b => Scalar [b]) input) = input).
  { clear. induction input; simpl; congruence. }
  assert (Hi : flat_map render_ignore (map (fun b => Scalar [b]) input) = input).
  { clear. induction input; simpl; congruence. }
  destruct e; rewrite ?Hbad, ?Hr, ?Hi; reflexivity.
Qed.

End Utf8Facts.

(** ** [build_jsonld] *)

Lemma checkForBytes_decoded (v : pyval) : checkForBytes v = inr (decoded v).
Proof. destruct v; reflexivity. Qed.

Lemma additional_properties_map (items : list (pyval * pyval)) :
  additional_properties items = inr (map property_of items).
Proof.
  induction items as [|[k v] items IH]; simpl; [reflexivity|].
  rewrite !checkForBytes_decoded, IH. reflexivity.
Qed.

Lemma add_var_step (r : role) (i : Info) (j : JsonLd) :
  add_var i (role_tag r) j
  = (inr tt,
     mkJsonLd (ld_context j) (ld_type j) (ld_name j)
              (variableMeasured j ++ [entry_for r i])).
Proof.
  unfold add_var, bind, lift, modify. rewrite additional_properties_map. reflexivity.
Qed.

Lemma add_var_fold (r : role) (l : list Info) (j : JsonLd) :
  fold_left (fun j i => mkJsonLd (ld_context j) (ld_type j) (ld_name j)
                                 (variableMeasured j ++ [entry_for r i])) l j
  = mkJsonLd (ld_context j) (ld_type j) (ld_name j)
             (variableMeasured j ++ map (entry_for r) l).
Proof.
  revert j; induction l as [|i l IH]; intros j; simpl.
  - rewrite app_nil_r. destruct j; reflexivity.
  - rewrite IH. simpl. rewrite <- app_assoc. reflexivity.
Qed.

(** [build_jsonld] returns, and its document lists the three groups one
    after the other. *)
Lemma build_jsonld_run (c : Classification) (dataset_name : string) :
  build_jsonld c dataset_name
  = inr {| ld_context := [("@vocab", "https://schema.org/");
                          ("ddi", "https://ddi-alliance.org/ns/cdi#")];
           ld_type := "Dataset";
           ld_name := dataset_name;
           variableMeasured :=
             map (entry_for Measure) (measures c)
             ++ map (entry_for Dimension) (dimensions c)
             ++ map (entry_for Attribute) (attributes c) |}.
Proof.
  unfold build_jsonld, bind.
  rewrite (for_each_fold _ _ (fun i j => add_var_step Measure i j)), add_var_fold.
  rewrite (for_each_fold _ _ (fun i j => add_var_step Dimension i j)), add_var_fold.
  rewrite (for_each_fold _ _ (fun i j => add_var_step Attribute i j)), add_var_fold.
  simpl. rewrite <- app_assoc. reflexivity.
Qed.

Lemma entry_at (c : Classification) (r : role) (k : nat) (i : Info) :
  nth_error (group r c) k = Some i ->
  nth_error (map (entry_for Measure) (measures c)
             ++ map (entry_for Dimension) (dimensions c)
             ++ map (entry_for Attribute) (attributes c)) (offset r c + k)
  = Some (entry_for r i).
Proof.
  intros H. destruct r; simpl in *.
  - rewrite nth_error_app1.
    + rewrite nth_error_map, H. reflexivity.
    + rewrite length_map. apply nth_error_Some. congruence.
  - rewrite nth_error_app2 by (rewrite length_map; lia).
    rewrite length_map.
    replace (length (measures c) + k - length (measures c))%nat with k by lia.
    rewrite nth_error_app1.
    + rewrite nth_error_map, H. reflexivity.
    + rewrite length_map. apply nth_error_Some. congruence.
  - rewrite nth_error_app2 by (rewrite length_map; lia).
    rewrite length_map.
    replace (length (measures c) + length (dimensions c) + k - length (measures c))%nat
      with (length (dimensions c) + k)%nat by lia.
    rewrite nth_error_app2 by (rewrite length_map; lia).
    rewrite length_map.
    replace (length (dimensions c) + k - length (dimensions c))%nat with k by lia.
    rewrite nth_error_map, H. reflexivity.
Qed.

(** ** [split] and the last path segment *)

Module PyStrFacts.
Import PyStr.

Lemma split_not_nil (sep : ascii) (s : string) : split sep s <> [].
Proof.
  destruct s as [|c r]; simpl; [discriminate|].
  destruct (Ascii.eqb c sep); [discriminate|].
  destruct (split sep r); discriminate.
Qed.

(** Joining the pieces with the separator gives the string back. *)
Lemma split_join (sep : ascii) (s : string) :
  String.concat (String sep EmptyString) (split sep s) = s.
Proof.
  induction s as [|c r IH]; simpl; [reflexivity|].
  destruct (Ascii.eqb_spec c sep) as [->|Hne].
  - pose proof (split_not_nil sep r) as Hnn.
    destruct (split sep r) as [|h t] eqn:E; [congruence|].
    change (String.concat (String sep "") ("" :: h :: t))
      with (String sep (String.concat (String sep "") (h :: t))).
    rewrite IH. reflexivity.
  - pose proof (split_not_nil sep r) as Hnn.
    destruct (split sep r) as [|h t] eqn:E; [congruence|].
    destruct t as [|h' t]; simpl in *; congruence.
Qed.

Lemma split_no_sep (sep : ascii) (s : string) :
  Forall (fun piece => has_char sep piece = false) (split sep s).
Proof.
  induction s as [|c r IH]; simpl.
  - constructor; [reflexivity | constructor].
  - destruct (Ascii.eqb_spec c sep) as [->|Hne].
    + constructor; [reflexivity | exact IH].
    + pose proof (split_not_nil sep r) as Hnn.
      destruct (split sep r) as [|h t]; [congruence|].
      inversion IH as [|? ? Hh Ht]; subst.
      constructor; [|exact Ht]. simpl.
      destruct (Ascii.eqb_spec c sep); [contradiction | exact Hh].
Qed.

Lemma append_assoc (a b c : string) :
  ((a ++ b) ++ c = a ++ (b ++ c))%string.
Proof. induction a as [|x a IH]; simpl; [reflexivity | rewrite IH; reflexivity]. Qed.

Lemma concat_last (sep : string) (l : list string) :
  l <> [] ->
  String.concat sep l = last_item l
  \/ exists pre, String.concat sep l = (pre ++ sep ++ last_item l)%string.
Proof.
  unfold last_item. induction l as [|x l IH]; intros Hnn; [congruence|].
  destruct l as [|y l]; [left; reflexivity|].
  right. destruct IH as [E|(pre & E)]; [discriminate| |].
  - exists x.
    change (String.concat sep (x :: y :: l)) with (x ++ sep ++ String.concat sep (y :: l))%string.
    rewrite E. reflexivity.
  - exists (x ++ sep ++ pre)%string.
    change (String.concat sep (x :: y :: l)) with (x ++ sep ++ String.concat sep (y :: l))%string.
    rewrite E.
    change (last (x :: y :: l) "") with (last (y :: l) "").
    rewrite !append_assoc. reflexivity.
Qed.

(** [p.split("/")[-1]]: the part of [p] after its last "/", or all of
    [p] when it has none. *)
Lemma last_segment (p : string) :
  let n := last_item (split "/" p) in
  has_char "/" n = false /\ (p = n \/ exists pre, p = (pre ++ "/" ++ n)%string).
Proof.
  intros n. split.
  - pose proof (split_no_sep "/" p) as H. rewrite Forall_forall in H.
    apply H. unfold n, last_item.
    pose proof (split_not_nil "/" p) as Hnn.
    destruct (exists_last Hnn) as (l' & a & E). rewrite E.
    rewrite last_last. apply in_or_app. right. left. reflexivity.
  - pose proof (concat_last "/" (split "/" p) (split_not_nil "/" p)) as H.
    rewrite split_join in H. exact H.
Qed.

End PyStrFacts.

(** ** The run of the classifier, as the claims use it *)

Lemma returned_classified (rt : Runtime) (f : h5file) :
  returned rt f = inr (classified rt f).
Proof. unfold returned. rewrite classify_datasets_run. reflexivity. Qed.

Lemma final_datasets_info (rt : Runtime) (f : h5file) :
  datasets_info (final_store rt f) = collect f.
Proof. unfold final_store. rewrite classify_datasets_run. reflexivity. Qed.

Lemma final_dim_candidates (rt : Runtime) (f : h5file) :
  dim_candidates (final_store rt f) = candidates (collect f).
Proof. unfold final_store. rewrite classify_datasets_run. reflexivity. Qed.

Lemma final_stdout (rt : Runtime) (f : h5file) :
  stdout (final_store rt f) = candidate_log (collect f) ++ classify_log rt (collect f).
Proof. unfold final_store. rewrite classify_datasets_run. reflexivity. Qed.

(** A descriptor whose evaluation raises is reported and is in no group;
    the classifier still returns. *)
Lemma raising_node_reported_and_dropped
  (rt : Runtime) (f : h5file) (n : string) (i : Info) (e : exn) :
  In (n, i) (datasets_info (final_store rt f)) ->
  node_role rt (datasets_info (final_store rt f)) (dim_candidates (final_store rt f)) n i
  = inl e ->
  exists c, returned rt f = inr c
            /\ dropped c i
            /\ In [PText n; PShape (shape i); PDims (dims i)] (stdout (final_store rt f)).
Proof.
  rewrite final_datasets_info, final_dim_candidates, final_stdout, returned_classified.
  intros Hin He. exists (classified rt f). split; [reflexivity|]. split.
  - eapply raise_dropped; eauto.
  - apply in_or_app. right. unfold classify_log. apply in_flat_map.
    exists (n, i). split; [exact Hin|]. unfold classify_lines. simpl.
    rewrite He. right. left. reflexivity.
Qed.

(** A descriptor whose evaluation does not raise is in exactly one group. *)
Lemma evaluated_node_assigned
  (rt : Runtime) (f : h5file) (n : string) (i : Info) (r : role) :
  In (n, i) (datasets_info (final_store rt f)) ->
  node_role rt (datasets_info (final_store rt f)) (dim_candidates (final_store rt f)) n i
  = inr r ->
  exists c, returned rt f = inr c /\ assigned c i r.
Proof.
  rewrite final_datasets_info, final_dim_candidates, returned_classified.
  intros Hin Hr. exists (classified rt f). split; [reflexivity|].
  eapply role_assigned; eauto.
Qed.

(** Every member of a group is a descriptor of the collection. *)
Lemma group_members_from_collection
  (rt : Runtime) (f : h5file) (r : role) (i : Info) :
  In i (group r (classified rt f)) ->
  In (path i, i) (datasets_info (final_store rt f)).
Proof.
  rewrite final_datasets_info. intros H. apply members_In in H.
  destruct H as (n & Hin & _).
  assert (path i = n) by (apply (proj2 (collect_keyed f)); exact Hin).
  subst. exact Hin.
Qed.

(** ** C1 and C2: the descriptor whose evaluation raises *)

(** C1 (the code departs from the claim).  The three groups are meant to
    partition the input paths.  On a file with a rank-1 axis and a rank-1
    table of compound type the classifier returns a classification in which
    the path of the table is in none of the three groups, although it is in
    the descriptor collection: the path is omitted. *)
Theorem C1_compound_path_omitted :
  returned rt_fifo file_compound
  = inr (mkClassification [] [energy_info] [])
  /\ In ("entry/scan", scan_info) (datasets_info (final_store rt_fifo file_compound))
  /\ dropped (mkClassification [] [energy_info] []) scan_info.
Proof.
  split; [vm_compute; reflexivity|]. split; [vm_compute; auto|].
  intros r H. destruct r; simpl in H; try contradiction.
  destruct H as [H|[]]. discriminate H.
Qed.

(** C2 (the code departs from the claim).  A descriptor whose evaluation
    raises is to be reported and put in the attributes group.  On the same
    file the table's type tag is not understood by numpy: the error is
    caught, the path, shape and labels are printed, the remaining
    descriptor is classified, but the table is not appended to
    [attributes]. *)
Theorem C2_raising_node_not_in_attributes :
  issubdtype_number rt_fifo (dtype scan_info) = inl TypeError
  /\ (exists c,
        fst (classify_datasets rt_fifo file_compound empty_store) = inr c
        /\ ~ In scan_info (attributes c)
        /\ attributes c = []
        /\ In energy_info (dimensions c))
  /\ In [PText "entry/scan"; PShape (Some [100%Z]); PDims [Some ""]]
        (stdout (snd (classify_datasets rt_fifo file_compound empty_store))).
Proof.
  split; [reflexivity|]. split.
  - eexists. split; [vm_compute; reflexivity|]. simpl. auto.
  - vm_compute. auto 10.
Qed.

(** The same happens to a dataset with a null dataspace next to an axis:
    [len(None)] raises in the shape test. *)
Example null_dataspace_dropped :
  returned rt_fifo file_null = inr (mkClassification [] [energy_info] [])
  /\ stdout (final_store rt_fifo file_null)
     = [ [PText "entry/comment"; PShape None; PDims []];
         [PText "name, shape"; PText "entry/energy"; PShape (Some [100%Z])];
         [PText "name, shape"; PText "entry/comment"; PShape None];
         [PText "entry/comment"; PShape None; PDims []] ].
Proof. split; vm_compute; reflexivity. Qed.

(** ** C3: the dimension-candidate set *)

(** C3.  For a descriptor of the collection whose shape is a tuple [s], the
    path is in the candidate set exactly when [s] has one axis or one of
    the axis labels is a non-empty string.  In particular a non-empty label
    makes a candidate whatever the rank, and a scalar without such a label
    is not a candidate. *)
Theorem C3_dimension_candidates
  (rt : Runtime) (f : h5file) (name : string) (info : Info) (s : list Z) :
  In (name, info) (datasets_info (final_store rt f)) ->
  shape info = Some s ->
  (In name (dim_candidates (final_store rt f))
   <-> length s = 1%nat \/ exists l, In (Some l) (dims info) /\ l <> "")
  /\ ((exists l, In (Some l) (dims info) /\ l <> "") ->
      In name (dim_candidates (final_store rt f)))
  /\ (s = [] -> (forall l, In (Some l) (dims info) -> l = "") ->
      ~ In name (dim_candidates (final_store rt f))).
Proof.
  rewrite final_datasets_info, final_dim_candidates. intros Hin Hs.
  assert (Hiff : In name (candidates (collect f))
                 <-> length s = 1%nat \/ exists l, In (Some l) (dims info) /\ l <> "").
  { rewrite (candidate_of_entry _ _ _ (collect_keyed f) Hin), is_candidate_spec. split.
    - intros (s' & E & H). rewrite Hs in E. inversion E; subst. exact H.
    - intros H. exists s. auto. }
  split; [exact Hiff|]. split.
  - intros H. apply Hiff. right. exact H.
  - intros -> Hnone Hc. apply Hiff in Hc. destruct Hc as [Hc|(l & Hl & Hne)].
    + discriminate Hc.
    + apply Hne, Hnone, Hl.
Qed.

(** Scenario C: the rank-2 node with a label on its first axis is a
    candidate. *)
Lemma C3_dimension_candidates_witness :
  In "temperature_time" (dim_candidates (final_store rt_fifo scenario_C)).
Proof.
  refine (proj1 (proj2 (C3_dimension_candidates rt_fifo scenario_C
                          "temperature_time" temperature_info [4%Z; 4%Z] _ _)) _).
  - vm_compute. left. reflexivity.
  - reflexivity.
  - exists "t". split; [left; reflexivity | discriminate].
Defined.

(** A descriptor without a shape is never a candidate, and the first loop
    reports it. *)
Lemma no_shape_no_candidate (rt : Runtime) (f : h5file) (name : string) (info : Info) :
  In (name, info) (datasets_info (final_store rt f)) ->
  shape info = None ->
  ~ In name (dim_candidates (final_store rt f))
  /\ In [PText name; PShape None; PDims (dims info)] (stdout (final_store rt f)).
Proof.
  rewrite final_datasets_info, final_dim_candidates, final_stdout. intros Hin Hs. split.
  - rewrite (candidate_of_entry _ _ _ (collect_keyed f) Hin). unfold is_candidate.
    rewrite Hs. discriminate.
  - apply in_or_app. left. unfold candidate_log. apply in_flat_map.
    exists (name, info). split; [exact Hin|]. simpl. rewrite Hs.
    left. unfold diagnostic. simpl. rewrite Hs. reflexivity.
Qed.

(** ** C4: the candidates *)

(** C4 as the specification states it fails: the test for "time" is made
    on the whole path, not on its last segment.  The rank-1 string array
    ["timeseries/label"] is a candidate, its type is not numeric, its
    display name ["label"] does not contain "time", and it is classified
    as a dimension. *)
Lemma C4_counterexample :
  In "timeseries/label" (dim_candidates (final_store rt_fifo file_time))
  /\ issubdtype_number rt_fifo (dtype label_info) = inr false
  /\ PyStr.contains "time"
       (PyStr.lower (PyStr.last_item (PyStr.split "/" (path label_info)))) = false
  /\ returned rt_fifo file_time = inr (mkClassification [] [label_info] []).
Proof. repeat split; vm_compute; auto. Qed.

(** C4, amended.  A candidate whose type tag numpy reads is assigned to
    dimensions exactly when the type is numeric or the path, taken whole
    and in lower case, contains "time"; otherwise it is assigned to
    attributes.  The shape plays no part. *)
Theorem C4_candidate_roles
  (rt : Runtime) (f : h5file) (name : string) (info : Info) (numeric : bool) :
  In (name, info) (datasets_info (final_store rt f)) ->
  In name (dim_candidates (final_store rt f)) ->
  issubdtype_number rt (dtype info) = inr numeric ->
  exists c,
    returned rt f = inr c
    /\ (assigned c info Dimension
        <-> numeric = true \/ PyStr.contains "time" (PyStr.lower name) = true)
    /\ (assigned c info Attribute
        <-> ~ (numeric = true \/ PyStr.contains "time" (PyStr.lower name) = true)).
Proof.
  rewrite final_datasets_info, final_dim_candidates, returned_classified.
  intros Hin Hc Hnum. exists (classified rt f). split; [reflexivity|].
  apply PySetFacts.mem_In in Hc.
  assert (Hrole : node_role rt (collect f) (candidates (collect f)) name info
                  = inr (if numeric || PyStr.contains "time" (PyStr.lower name)
                         then Dimension else Attribute)).
  { unfold node_role. rewrite Hc, Hnum. reflexivity. }
  pose proof (role_assigned rt f _ _ _ Hin Hrole) as Ha.
  rewrite <- orb_true_iff.
  destruct (numeric || PyStr.contains "time" (PyStr.lower name)); split; split.
  - reflexivity.
  - intros _. exact Ha.
  - intros [H _] _. destruct Ha as [_ Hu]. specialize (Hu _ H). discriminate.
  - intros H. exfalso. apply H. reflexivity.
  - intros [H _]. destruct Ha as [_ Hu]. specialize (Hu _ H). discriminate.
  - discriminate.
  - discriminate.
  - intros _. exact Ha.
Qed.

(** The string array under ["timeseries"] is assigned to dimensions. *)
Lemma C4_candidate_roles_witness :
  exists c, returned rt_fifo file_time = inr c /\ assigned c label_info Dimension.
Proof.
  destruct (C4_candidate_roles rt_fifo file_time "timeseries/label"
              label_info false) as (c & Hc & Hd & _).
  - vm_compute. left. reflexivity.
  - vm_compute. left. reflexivity.
  - reflexivity.
  - exists c. split; [exact Hc|]. apply Hd. right. reflexivity.
Defined.

(** ** C5: the descriptors that are not candidates *)

(** The shape rule, for a descriptor that has a shape.  A descriptor that
    is not a candidate and whose shape is a tuple [s] is assigned to
    measures exactly when [s] is not empty and holds, at some position, the
    first axis length of a candidate with a non-empty shape; otherwise it is
    assigned to attributes. *)
Lemma non_candidate_with_shape
  (rt : Runtime) (f : h5file) (name : string) (info : Info) (s : list Z) :
  In (name, info) (datasets_info (final_store rt f)) ->
  ~ In name (dim_candidates (final_store rt f)) ->
  shape info = Some s ->
  let aligned :=
    s <> []
    /\ exists c ci x rest,
         In c (dim_candidates (final_store rt f))
         /\ In (c, ci) (datasets_info (final_store rt f))
         /\ shape ci = Some (x :: rest)
         /\ In x s in
  exists cl,
    returned rt f = inr cl
    /\ (assigned cl info Measure <-> aligned)
    /\ (assigned cl info Attribute <-> ~ aligned).
Proof.
  rewrite final_datasets_info, final_dim_candidates, returned_classified.
  intros Hin Hnc Hs aligned. exists (classified rt f). split; [reflexivity|].
  assert (Hmem : PySet.mem name (candidates (collect f)) = false).
  { destruct (PySet.mem name (candidates (collect f))) eqn:E; [|reflexivity].
    apply PySetFacts.mem_In in E. contradiction. }
  destruct (candidate_lens rt f) as (lens & Hl & Hx).
  destruct (any_aligned_some s lens) as (b & Hb & Hspec).
  assert (Hrole : node_role rt (collect f) (candidates (collect f)) name info
                  = inr (if b then Measure else Attribute)).
  { unfold node_role. rewrite Hmem, Hl. simpl. rewrite Hs, Hb. reflexivity. }
  pose proof (role_assigned rt f _ _ _ Hin Hrole) as Ha.
  assert (Hal : b = true <-> aligned).
  { rewrite Hspec. unfold aligned. split.
    - intros (Hne & x & Hxl & Hxs). split; [exact Hne|].
      apply Hx in Hxl. destruct Hxl as (c & ci & rest & H1 & H2 & H3).
      exists c, ci, x, rest. auto.
    - intros (Hne & c & ci & x & rest & H1 & H2 & H3 & H4). split; [exact Hne|].
      exists x. split; [|exact H4]. apply Hx. exists c, ci, rest. auto. }
  rewrite <- Hal. destruct b; split; split.
  - reflexivity.
  - intros _. exact Ha.
  - intros [H _] _. destruct Ha as [_ Hu]. specialize (Hu _ H). discriminate.
  - intros H. exfalso. apply H. reflexivity.
  - intros [H _]. destruct Ha as [_ Hu]. specialize (Hu _ H). discriminate.
  - discriminate.
  - discriminate.
  - intros _. exact Ha.
Qed.

(** Scenario A: ["y"] of shape (10, 5) shares the length 10 with the axis
    ["x"] and is assigned to measures. *)
Example non_candidate_with_shape_scenario_A :
  exists cl, returned rt_fifo scenario_A = inr cl /\ assigned cl y_info Measure.
Proof.
  destruct (non_candidate_with_shape rt_fifo scenario_A "y" y_info [10%Z; 5%Z])
    as (cl & Hc & Hm & _).
  - vm_compute. right. left. reflexivity.
  - vm_compute. intros [H|[]]. discriminate H.
  - reflexivity.
  - exists cl. split; [exact Hc|]. apply Hm. split; [discriminate|].
    exists "x", x_info, 10%Z, []. repeat split.
    + vm_compute. left. reflexivity.
    + vm_compute. left. reflexivity.
    + left. reflexivity.
Qed.

(** C5 (the code departs from the claim).  A descriptor that is not a
    candidate and whose shape does not hold an axis length of a candidate
    is to be assigned to attributes.  The dataset ["entry/comment"] has a
    null dataspace: its shape is [None], it is not a candidate, and it is
    no measure.  Next to the axis ["entry/energy"] of length 100 the test
    [len(info["shape"]) > 0] raises, the handler only prints, and the
    dataset is in no group: it is not assigned to attributes. *)
Theorem C5_shapeless_node_not_in_attributes :
  In ("entry/comment", comment_info) (datasets_info (final_store rt_fifo file_null))
  /\ ~ In "entry/comment" (dim_candidates (final_store rt_fifo file_null))
  /\ shape comment_info = None
  /\ exists c,
       returned rt_fifo file_null = inr c
       /\ ~ In comment_info (measures c)
       /\ ~ In comment_info (attributes c)
       /\ attributes c = [].
Proof.
  split; [vm_compute; auto|]. split.
  - vm_compute. intros [H|[]]. discriminate H.
  - split; [reflexivity|]. eexists. split; [vm_compute; reflexivity|].
    simpl. repeat split; intros [].
Qed.

(** ** C6, C7, C8: the assembled document *)

(** Where the entry of a classified descriptor is, and what it is. *)
Lemma entry_located (c : Classification) (dataset_name : string)
  (r : role) (m : nat) (i : Info) :
  nth_error (group r c) m = Some i ->
  exists doc,
    build_jsonld c dataset_name = inr doc
    /\ length (variableMeasured doc)
       = (length (measures c) + length (dimensions c) + length (attributes c))%nat
    /\ nth_error (variableMeasured doc) (offset r c + m) = Some (entry_for r i).
Proof.
  intros H. eexists. split; [apply build_jsonld_run|]. simpl. split.
  - rewrite !length_app, !length_map. lia.
  - apply entry_at, H.
Qed.

(** C6.  The entry of a classified descriptor has one property per local
    attribute, in order.  Where the attribute's key or value is a numpy
    byte string, the property's name or value is its text, decoded with
    [errors="replace"]: the decoding does not raise, and it agrees with
    the strict decoding whenever the bytes are well-formed UTF-8. *)
Theorem C6_byte_strings_decoded
  (c : Classification) (dataset_name : string) (r : role) (m : nat) (i : Info)
  (n : nat) (k v : pyval) :
  nth_error (group r c) m = Some i ->
  nth_error (attrs i) n = Some (k, v) ->
  exists doc e p,
    build_jsonld c dataset_name = inr doc
    /\ nth_error (variableMeasured doc) (offset r c + m) = Some e
    /\ length (additionalProperty e) = length (attrs i)
    /\ nth_error (additionalProperty e) n = Some p
    /\ (forall b, k = NpBytes b ->
          exists s, Utf8.decode b Utf8.replace = inr s
                    /\ ap_name p = Some s
                    /\ forall t, Utf8.decode b Utf8.strict = inr t -> s = t)
    /\ (forall b, v = NpBytes b ->
          exists s, Utf8.decode b Utf8.replace = inr s
                    /\ ap_value p = Some s
                    /\ forall t, Utf8.decode b Utf8.strict = inr t -> s = t).
Proof.
  intros Hi Hkv.
  destruct (entry_located c dataset_name r m i Hi) as (doc & Hdoc & _ & He).
  exists doc, (entry_for r i), (property_of (k, v)).
  split; [exact Hdoc|]. split; [exact He|]. split; [apply length_map|].
  split; [simpl; rewrite nth_error_map, Hkv; reflexivity|].
  split; intros b ->;
    exists (string_of_list_byte (flat_map Utf8.render (Utf8.run Utf8.Start b)));
    (split; [reflexivity|]); (split; [reflexivity|]);
    intros t Ht; apply Utf8Facts.strict_replace in Ht; destruct Ht as [Ht _];
    unfold Utf8.decode in Ht; congruence.
Qed.

(** Scenario D: the Latin-1 bytes "\xb5m" come out as U+FFFD followed
    by "m". *)
Lemma C6_byte_strings_decoded_witness :
  exists doc e p,
    build_jsonld scenario_D "Example HDF5 Dataset" = inr doc
    /\ nth_error (variableMeasured doc) 0 = Some e
    /\ nth_error (additionalProperty e) 1 = Some p
    /\ ap_name p = Some "len"
    /\ ap_value p = Some (string_of_list_byte [xef; xbf; xbd; x6d]).
Proof.
  destruct (C6_byte_strings_decoded scenario_D "Example HDF5 Dataset" Dimension 0
              scenario_D_info 1 (NpBytes [x6c; x65; x6e]) (NpBytes [xb5; x6d])
              eq_refl eq_refl)
    as (doc & e & p & Hdoc & He & _ & Hp & Hk & Hv).
  destruct (Hk _ eq_refl) as (s & Hs & Hname & _).
  destruct (Hv _ eq_refl) as (s' & Hs' & Hvalue & _).
  exists doc, e, p. repeat split; try assumption.
  - rewrite Hname. vm_compute in Hs. injection Hs as <-. reflexivity.
  - rewrite Hvalue. vm_compute in Hs'. injection Hs' as <-. reflexivity.
Defined.

(** C7.  Where the attribute's key or value is anything but a numpy byte
    string (a [str], an [int], a [float], a [list], plain [bytes]), the
    property's name or value is [None]. *)
Theorem C7_other_values_are_none
  (c : Classification) (dataset_name : string) (r : role) (m : nat) (i : Info)
  (n : nat) (k v : pyval) :
  nth_error (group r c) m = Some i ->
  nth_error (attrs i) n = Some (k, v) ->
  exists doc e p,
    build_jsonld c dataset_name = inr doc
    /\ nth_error (variableMeasured doc) (offset r c + m) = Some e
    /\ nth_error (additionalProperty e) n = Some p
    /\ (is_np_bytes k = false -> ap_name p = None)
    /\ (is_np_bytes v = false -> ap_value p = None).
Proof.
  intros Hi Hkv.
  destruct (entry_located c dataset_name r m i Hi) as (doc & Hdoc & _ & He).
  exists doc, (entry_for r i), (property_of (k, v)).
  split; [exact Hdoc|]. split; [exact He|].
  split; [simpl; rewrite nth_error_map, Hkv; reflexivity|].
  split; intros H; simpl.
  - destruct k; simpl in *; congruence.
  - destruct v; simpl in *; congruence.
Qed.

(** Scenario D: the attribute ["long_name"] with the value
    ["photon energy"], both of type [str], comes out with neither name
    nor value. *)
Lemma C7_other_values_are_none_witness :
  exists doc e p,
    build_jsonld scenario_D "Example HDF5 Dataset" = inr doc
    /\ nth_error (variableMeasured doc) 0 = Some e
    /\ nth_error (additionalProperty e) 2 = Some p
    /\ ap_name p = None /\ ap_value p = None.
Proof.
  destruct (C7_other_values_are_none scenario_D "Example HDF5 Dataset" Dimension 0
              scenario_D_info 2 (PyStr "long_name") (PyStr "photon energy")
              eq_refl eq_refl)
    as (doc & e & p & Hdoc & He & Hp & Hk & Hv).
  exists doc, e, p. repeat split; try assumption.
  - apply Hk. reflexivity.
  - apply Hv. reflexivity.
Defined.

(** C8.  The document has as many entries as the three groups have
    descriptors.  The descriptor at position [m] of the group of role [r]
    has its entry at position [m] after the entries of the groups that come
    before (measures, then dimensions, then attributes).  The entry carries
    the role tag of the group, the last segment of the path as its name,
    the path after a leading "/", the format constant, and one property
    per local attribute, hence none when there is no attribute. *)
Theorem C8_one_entry_per_descriptor
  (c : Classification) (dataset_name : string) (r : role) (m : nat) (i : Info) :
  nth_error (group r c) m = Some i ->
  exists doc e,
    build_jsonld c dataset_name = inr doc
    /\ ld_name doc = dataset_name
    /\ length (variableMeasured doc)
       = (length (measures c) + length (dimensions c) + length (attributes c))%nat
    /\ nth_error (variableMeasured doc) (offset r c + m) = Some e
    /\ ddi_role e = role_tag r
    /\ ve_name e = PyStr.last_item (PyStr.split "/" (path i))
    /\ PyStr.has_char "/" (ve_name e) = false
    /\ (path i = ve_name e \/ exists pre, path i = (pre ++ "/" ++ ve_name e)%string)
    /\ dataset e = ("/" ++ path i)%string
    /\ encodingFormat e = "application/x-hdf5"
    /\ length (additionalProperty e) = length (attrs i)
    /\ (attrs i = [] -> additionalProperty e = []).
Proof.
  intros Hi.
  destruct (entry_located c dataset_name r m i Hi) as (doc & Hdoc & Hlen & He).
  exists doc, (entry_for r i).
  split; [exact Hdoc|].
  split; [rewrite build_jsonld_run in Hdoc; inversion Hdoc; reflexivity|].
  split; [exact Hlen|]. split; [exact He|].
  destruct (PyStrFacts.last_segment (path i)) as [Hno Hsplit].
  repeat split; try assumption.
  - apply length_map.
  - intros E. simpl. rewrite E. reflexivity.
Qed.

(** Scenario D: the one descriptor, a dimension stored under
    ["entry/data/energy"], gives the one entry of the document. *)
Lemma C8_one_entry_per_descriptor_witness :
  exists doc e,
    build_jsonld scenario_D "Example HDF5 Dataset" = inr doc
    /\ variableMeasured doc = [e]
    /\ ddi_role e = "Dimension"
    /\ ve_name e = "energy"
    /\ dataset e = "/entry/data/energy".
Proof.
  destruct (C8_one_entry_per_descriptor scenario_D "Example HDF5 Dataset" Dimension 0
              scenario_D_info eq_refl)
    as (doc & e & Hdoc & _ & Hlen & He & Hrole & Hname & _ & _ & Hds & _).
  exists doc, e. repeat split; try assumption.
  destruct (variableMeasured doc) as [|e0 [|e1 l]]; simpl in *; try discriminate.
  congruence.
Defined.

(** ** C9 and C10: the pipeline *)

Lemma pipeline_run (rt : Runtime) (f : h5file) (dataset_name : string) :
  pipeline rt f dataset_name
  = (build_jsonld (classified rt f) dataset_name,
     candidate_log (collect f) ++ classify_log rt (collect f)).
Proof. unfold pipeline. rewrite classify_datasets_run. reflexivity. Qed.

Lemma members_of_empty (rt : Runtime) (f : h5file) :
  collect f = [] -> classified rt f = mkClassification [] [] [].
Proof. intros H. unfold classified, members. rewrite H. reflexivity. Qed.

(** C9 as the specification states it fails: on a file without any
    dataset the pipeline raises nothing. *)
Lemma C9_counterexample :
  datasets_info (final_store rt_fifo []) = []
  /\ ~ (exists e, fst (pipeline rt_fifo [] "Example HDF5 Dataset") = inl e).
Proof.
  split; [reflexivity|]. intros (e & H). vm_compute in H. discriminate H.
Qed.

Lemma any_aligned_ext (sh : option (list Z)) (l1 l2 : list Z) :
  (forall x, In x l1 <-> In x l2) -> any_aligned sh l1 = any_aligned sh l2.
Proof.
  intros H. destruct sh as [s|].
  - destruct (any_aligned_some s l1) as (b1 & E1 & S1).
    destruct (any_aligned_some s l2) as (b2 & E2 & S2).
    rewrite E1, E2. f_equal.
    assert (Hb : b1 = true <-> b2 = true).
    { rewrite S1, S2. split; intros (Hne & x & Hx & Hs); (split; [exact Hne|]);
        exists x; (split; [apply H; exact Hx | exact Hs]). }
    destruct b1, b2; try reflexivity.
    + symmetry. apply Hb. reflexivity.
    + apply Hb. reflexivity.
  - rewrite !any_aligned_none. destruct l1 as [|x1 l1], l2 as [|x2 l2]; try reflexivity.
    + exfalso. apply (proj2 (H x2)). left. reflexivity.
    + exfalso. apply (proj1 (H x1)). left. reflexivity.
Qed.

(** The outcome for a descriptor does not depend on the order in which
    the candidate set is iterated. *)
Lemma node_role_order (rt1 rt2 : Runtime) (f : h5file) (n : string) (i : Info) :
  (forall tag, issubdtype_number rt1 tag = issubdtype_number rt2 tag) ->
  node_role rt1 (collect f) (candidates (collect f)) n i
  = node_role rt2 (collect f) (candidates (collect f)) n i.
Proof.
  intros Hnp. unfold node_role.
  destruct (PySet.mem n (candidates (collect f))).
  - rewrite Hnp. reflexivity.
  - destruct (candidate_lens rt1 f) as (l1 & E1 & S1).
    destruct (candidate_lens rt2 f) as (l2 & E2 & S2).
    rewrite E1, E2. simpl.
    rewrite (any_aligned_ext (shape i) l1 l2); [reflexivity|].
    intros x. rewrite S1, S2. reflexivity.
Qed.

(** C10.  Two runs on the same file give the same document (and print
    the same lines), even when the two processes iterate the candidate set
    in different orders, provided numpy answers alike in both. *)
Theorem C10_pipeline_deterministic
  (rt1 rt2 : Runtime) (f : h5file) (dataset_name : string) :
  (forall tag, issubdtype_number rt1 tag = issubdtype_number rt2 tag) ->
  pipeline rt1 f dataset_name = pipeline rt2 f dataset_name.
Proof.
  intros Hnp. rewrite !pipeline_run.
  assert (Hc : classified rt1 f = classified rt2 f).
  { unfold classified, members. simpl.
    assert (Hr : forall r, filter (has_role rt1 (collect f) (candidates (collect f)) r)
                                  (collect f)
                           = filter (has_role rt2 (collect f) (candidates (collect f)) r)
                                    (collect f)).
    { intros r. apply filter_ext. intros [n i]. unfold has_role. simpl.
      rewrite (node_role_order rt1 rt2 f n i Hnp). reflexivity. }
    rewrite !Hr. reflexivity. }
  assert (Hl : classify_log rt1 (collect f) = classify_log rt2 (collect f)).
  { unfold classify_log. apply flat_map_ext. intros [n i]. unfold classify_lines. simpl.
    rewrite (node_role_order rt1 rt2 f n i Hnp). reflexivity. }
  rewrite Hc, Hl. reflexivity.
Qed.

(** With the candidates ["x"] and ["t"] walked in either order, the
    document and the lines printed are the same. *)
Lemma C10_pipeline_deterministic_witness :
  set_iter rt_fifo (dim_candidates (final_store rt_fifo file_two_axes))
  <> set_iter rt_lifo (dim_candidates (final_store rt_lifo file_two_axes))
  /\ pipeline rt_fifo file_two_axes "Example HDF5 Dataset"
     = pipeline rt_lifo file_two_axes "Example HDF5 Dataset".
Proof.
  split.
  - vm_compute. discriminate.
  - apply (C10_pipeline_deterministic rt_fifo rt_lifo file_two_axes).
    intros tag. reflexivity.
Defined.

(** ** Examples *)

Example lower_ex : PyStr.lower "Entry/Time_Stamp" = "entry/time_stamp".
Proof. reflexivity. Qed.

Example split_ex : PyStr.split "/" "entry/data/x" = ["entry"; "data"; "x"].
Proof. reflexivity. Qed.

Example split_trailing : PyStr.split "/" "entry/" = ["entry"; ""].
Proof. reflexivity. Qed.

Example decode_ascii : Utf8.decode [x65; x56] Utf8.replace = inr "eV".
Proof. reflexivity. Qed.

(** b'\xb5m' (Latin-1 micro sign): the byte B5 cannot start a sequence. *)
Example decode_latin1 :
  Utf8.decode [xb5; x6d] Utf8.replace
  = inr (string_of_list_byte [xef; xbf; xbd; x6d])
  /\ Utf8.decode [xb5; x6d] Utf8.strict = inl UnicodeDecodeError.
Proof. split; reflexivity. Qed.

(** A truncated three-byte sequence is one undecodable run. *)
Example decode_truncated :
  Utf8.decode [xe2; x82] Utf8.replace = inr (string_of_list_byte [xef; xbf; xbd]).
Proof. reflexivity. Qed.

(** An encoded surrogate (ED A0 80) is three undecodable runs. *)
Example decode_surrogate :
  Utf8.decode [xed; xa0; x80] Utf8.replace
  = inr (string_of_list_byte [xef; xbf; xbd; xef; xbf; xbd; xef; xbf; xbd]).
Proof. reflexivity. Qed.

Example contains_time : PyStr.contains "time" (PyStr.lower "Entry/TIME_stamp") = true.
Proof. reflexivity. Qed.

Example tolist_bytes :
  tolist (NdArray [NpBytes [x78]; NpBytes [x79]]) = PyList [PyBytes [x78]; PyBytes [x79]].
Proof. reflexivity. Qed.

(** A key set twice keeps its first position and takes the last value. *)
Example dict_set_twice :
  PyDict.set "a" 3 (PyDict.set "b" 2 (PyDict.set "a" 1 [])) = [("a", 3); ("b", 2)].
Proof. reflexivity. Qed.

(** Scenario A: ["x"] is a dimension, ["y"] a measure, ["units"] an
    attribute. *)
Example scenario_A_classified :
  returned rt_fifo scenario_A
  = inr (mkClassification
           [y_info] [x_info] [mkInfo "units" (Some []) "object" [] []]).
Proof. vm_compute. reflexivity. Qed.

(** Scenario B: a rank-1 array of strings named ["label"] is an
    attribute. *)
Example scenario_B_classified :
  returned rt_fifo [("label", dset (Some [3%Z]) "object" [] [Some ""])]
  = inr (mkClassification [] [] [mkInfo "label" (Some [3%Z]) "object" [] [Some ""]]).
Proof. vm_compute. reflexivity. Qed.

(** Scenario C: the labelled rank-2 numeric node is a dimension. *)
Example scenario_C_classified :
  returned rt_fifo scenario_C = inr (mkClassification [] [temperature_info] []).
Proof. vm_compute. reflexivity. Qed.

(** Scenario D: the entry of the document, property by property. *)
Example scenario_D_document :
  option_map (map (fun e => map (fun p => (ap_name p, ap_value p)) (additionalProperty e)))
    (match build_jsonld scenario_D "Example HDF5 Dataset" with
     | inr doc => Some (variableMeasured doc)
     | inl _ => None
     end)
  = Some [[ (None, Some "eV");
            (Some "len", Some (string_of_list_byte [xef; xbf; xbd; x6d]));
            (None, None);
            (None, None);
            (None, None) ]].
Proof. vm_compute. reflexivity. Qed.

(** With two axes and a dataset without shape: the aligned array is a
    measure, the string axis an attribute, and the dataset without shape
    is in no group. *)
Example two_axes_classified :
  returned rt_lifo file_two_axes
  = inr (mkClassification
           [mkInfo "y" (Some [7%Z; 10%Z]) "int32" [] [Some ""; Some ""]]
           [x_info]
           [mkInfo "t" (Some [7%Z]) "object" [] [Some ""]]).
Proof. vm_compute. reflexivity. Qed.

(** * Further properties of [chatGPT-HDF5reader.py] *)

(** ** The visitor *)

Lemma dict_set_fresh {V} (k : string) (v : V) (d : list (string * V)) :
  ~ In k (map fst d) -> PyDict.set k v d = d ++ [(k, v)].
Proof.
  induction d as [|[k0 v0] r IH]; simpl; intros H; [reflexivity|].
  destruct (String.eqb_spec k0 k) as [->|Hne]; [exfalso; auto|].
  rewrite IH by auto. reflexivity.
Qed.

Lemma visit_step_keys (di : list (string * Info)) (no : string * h5object) (k : string) :
  In k (map fst di) -> In k (map fst (visit_step di no)).
Proof.
  intros H. unfold visit_step. destruct (snd no); [exact H|].
  apply PyDictFacts.set_keys. right. exact H.
Qed.

Lemma fold_visit_keys (f : h5file) (di : list (string * Info)) (k : string) :
  In k (map fst di) -> In k (map fst (fold_left visit_step f di)).
Proof.
  revert di; induction f as [|no f IH]; intros di H; simpl; [exact H|].
  apply IH, visit_step_keys, H.
Qed.

Lemma collect_has_dataset (f : h5file) (n : string) (d : Dataset) :
  In (n, IsDataset d) f -> In n (map fst (collect f)).
Proof.
  unfold collect. generalize (@nil (string * Info)).
  induction f as [|no f IH]; intros di H; simpl in *; [contradiction|].
  destruct H as [->|H]; [|apply IH, H].
  apply fold_visit_keys. unfold visit_step. simpl.
  apply PyDictFacts.set_keys. left. reflexivity.
Qed.

Lemma fold_visit_fresh (f : h5file) (di : list (string * Info)) :
  NoDup (map fst f) ->
  (forall k, In k (map fst f) -> ~ In k (map fst di)) ->
  fold_left visit_step f di = di ++ flat_map visited_entry f.
Proof.
  revert di; induction f as [|[n o] f IH]; intros di Hnd Hfresh; simpl.
  - symmetry. apply app_nil_r.
  - inversion Hnd as [|? ? Hn Hf]; subst.
    assert (E : visit_step di (n, o) = di ++ visited_entry (n, o)).
    { unfold visit_step, visited_entry. simpl. destruct o as [|d].
      - symmetry. apply app_nil_r.
      - apply dict_set_fresh. apply Hfresh. left. reflexivity. }
    rewrite E, IH, <- app_assoc; [reflexivity | exact Hf|].
    intros k Hk Hin. rewrite map_app, in_app_iff in Hin. destruct Hin as [Hin|Hin].
    + apply (Hfresh k); [right; exact Hk | exact Hin].
    + unfold visited_entry in Hin. simpl in Hin. destruct o; simpl in Hin.
      * contradiction.
      * destruct Hin as [<-|[]]. contradiction.
Qed.

(** X1.  The descriptor collection holds no path twice; every descriptor
    is stored under its own path and comes from a dataset that was visited
    under that path, whose shape, type tag and labels it carries, with one
    attribute per attribute of the dataset; every dataset visited has a
    descriptor, and a name under which only groups were visited has none. *)
Theorem X1_collection_of_visited_datasets (rt : Runtime) (f : h5file) :
  NoDup (map fst (datasets_info (final_store rt f)))
  /\ (forall n i,
        In (n, i) (datasets_info (final_store rt f)) ->
        path i = n
        /\ exists d, In (n, IsDataset d) f
                     /\ shape i = ds_shape d /\ dtype i = ds_dtype d
                     /\ dims i = ds_dims d
                     /\ map fst (attrs i) = map fst (ds_attrs d))
  /\ (forall n d, In (n, IsDataset d) f ->
        exists i, In (n, i) (datasets_info (final_store rt f))).
Proof.
  rewrite final_datasets_info. split; [apply collect_keyed|]. split.
  - intros n i H. split; [apply (proj2 (collect_keyed f)), H|].
    apply collect_from_file in H. destruct H as (d & Hd & ->).
    exists d. repeat split; try assumption.
    simpl. rewrite map_map. reflexivity.
  - intros n d H. apply collect_has_dataset in H. apply in_map_iff in H.
    destruct H as ([n' i] & E & H). simpl in E. subst. eauto.
Qed.

(** The three objects of the sample file give two descriptors. *)
Lemma X1_collection_of_visited_datasets_witness :
  path scan_info = "entry/scan"
  /\ exists i, In ("entry/energy", i) (datasets_info (final_store rt_fifo file_compound)).
Proof.
  destruct (X1_collection_of_visited_datasets rt_fifo file_compound) as (_ & H1 & H2).
  split.
  - apply (H1 "entry/scan" scan_info). vm_compute. auto.
  - apply (H2 "entry/energy" (mkDataset (Some [100%Z]) "float64" [] [Some ""])).
    vm_compute. auto.
Defined.

(** X2.  When no name is visited twice, the collection lists the datasets
    in the order of the visit, each under its name, and skips the groups. *)
Theorem X2_collection_in_visit_order (rt : Runtime) (f : h5file) :
  NoDup (map fst f) ->
  datasets_info (final_store rt f) = flat_map visited_entry f.
Proof.
  intros H. rewrite final_datasets_info. unfold collect.
  rewrite fold_visit_fresh; [reflexivity | exact H | intros k _ []].
Qed.

Lemma X2_collection_in_visit_order_witness :
  map fst (datasets_info (final_store rt_fifo scenario_A)) = ["x"; "y"; "units"].
Proof.
  rewrite (X2_collection_in_visit_order rt_fifo scenario_A).
  - reflexivity.
  - vm_compute. repeat constructor; simpl; intuition discriminate.
Defined.

(** X3.  An attribute whose value is a numpy array reaches the document
    with the value [None], whatever the array holds, byte strings
    included: the visitor turns the array into a list, and [checkForBytes]
    decodes nothing but a [numpy.bytes_]. *)
Theorem X3_array_attribute_is_none
  (name : string) (d : Dataset) (st : Store) (n : nat) (k : pyval) (l : list pyval) :
  nth_error (ds_attrs d) n = Some (k, NdArray l) ->
  exists i props p,
    PyDict.get name (datasets_info (snd (visitor name (IsDataset d) st))) = inr i
    /\ additional_properties (attrs i) = inr props
    /\ nth_error (attrs i) n = Some (k, PyList (map item l))
    /\ nth_error props n = Some p
    /\ ap_value p = None.
Proof.
  intros H.
  assert (Hget : forall (V : Type) (v : V) ds, PyDict.get name (PyDict.set name v ds) = inr v).
  { intros V v ds. induction ds as [|[k0 v0] r IH]; simpl.
    - rewrite String.eqb_refl. reflexivity.
    - destruct (String.eqb_spec k0 name) as [->|Hne]; simpl.
      + rewrite String.eqb_refl. reflexivity.
      + destruct (String.eqb_spec k0 name); [contradiction | exact IH]. }
  exists (info_of name d), (map property_of (attrs (info_of name d))),
    (property_of (k, PyList (map item l))).
  split; [simpl; apply Hget|]. split; [apply additional_properties_map|].
  assert (Hn : nth_error (attrs (info_of name d)) n = Some (k, PyList (map item l))).
  { simpl. rewrite nth_error_map, H. reflexivity. }
  split; [exact Hn|]. split; [rewrite nth_error_map, Hn; reflexivity | reflexivity].
Qed.

(** The attribute ["axes"] with an array of two byte strings. *)
Lemma X3_array_attribute_is_none_witness :
  exists i props p,
    PyDict.get "entry/data"
      (datasets_info (snd (visitor "entry/data" (IsDataset labelled_dataset) empty_store)))
    = inr i
    /\ additional_properties (attrs i) = inr props
    /\ nth_error props 0 = Some p
    /\ ap_value p = None.
Proof.
  destruct (X3_array_attribute_is_none "entry/data" labelled_dataset empty_store 0
              (PyStr "axes") [NpBytes [x78]; NpBytes [x79]] eq_refl)
    as (i & props & p & H1 & H2 & _ & H3 & H4).
  exists i, props, p. auto.
Defined.

(** ** The candidate set and the axis lengths *)

Lemma set_add_NoDup (x : string) (s : list string) :
  NoDup s -> NoDup (PySet.add x s).
Proof.
  intros H. unfold PySet.add. destruct (PySet.mem x s) eqn:E; [exact H|].
  apply NoDup_app; [exact H | constructor; [intros [] | constructor] |].
  intros a Ha [<-|[]].
  apply PySetFacts.mem_In in Ha. congruence.
Qed.

Lemma candidates_NoDup (di : list (string * Info)) : NoDup (candidates di).
Proof.
  unfold candidates. generalize (NoDup_nil string). generalize (@nil string).
  induction di as [|ni di IH]; intros s Hs; simpl; [exact Hs|].
  apply IH. destruct (is_candidate (snd ni)); [apply set_add_NoDup|]; exact Hs.
Qed.

(** X4.  The candidate set lists no path twice, and each candidate is the
    path of a descriptor that has a shape.  Hence the list of first-axis
    lengths in the classification loop is always built: no lookup raises
    [KeyError], no [shape[0]] raises [IndexError], whatever the order in
    which the set is walked; it holds [x] exactly when some candidate has a
    non-empty shape starting with [x]. *)
Theorem X4_axis_lengths_never_raise (rt : Runtime) (f : h5file) :
  NoDup (dim_candidates (final_store rt f))
  /\ (forall c, In c (dim_candidates (final_store rt f)) ->
        exists i s, In (c, i) (datasets_info (final_store rt f)) /\ shape i = Some s)
  /\ exists lens,
       dim_lens (datasets_info (final_store rt f))
                (set_iter rt (dim_candidates (final_store rt f))) = inr lens
       /\ forall x, In x lens
                    <-> exists c i rest,
                          In c (dim_candidates (final_store rt f))
                          /\ In (c, i) (datasets_info (final_store rt f))
                          /\ shape i = Some (x :: rest).
Proof.
  rewrite final_datasets_info, final_dim_candidates.
  split; [apply candidates_NoDup|]. split; [|apply candidate_lens].
  intros c Hc. apply candidates_In in Hc. destruct Hc as (i & Hi & Hc).
  apply is_candidate_spec in Hc. destruct Hc as (s & Hs & _). eauto.
Qed.

Lemma X4_axis_lengths_never_raise_witness :
  exists i s, In ("x", i) (datasets_info (final_store rt_lifo file_two_axes))
              /\ shape i = Some s.
Proof.
  apply (proj1 (proj2 (X4_axis_lengths_never_raise rt_lifo file_two_axes))).
  vm_compute. auto.
Defined.

(** ** Which descriptors are dropped *)

Lemma node_role_raises (rt : Runtime) (f : h5file) (n : string) (i : Info) :
  In (n, i) (collect f) ->
  ((exists e, node_role rt (collect f) (candidates (collect f)) n i = inl e)
   <-> raises rt (final_store rt f) n i).
Proof.
  intros Hin. unfold raises. rewrite final_datasets_info, final_dim_candidates.
  pose proof (candidate_of_entry _ _ _ (collect_keyed f) Hin) as Hcand.
  unfold node_role. destruct (PySet.mem n (candidates (collect f))) eqn:Hmem.
  - apply PySetFacts.mem_In in Hmem.
    assert (Hs : exists s, shape i = Some s).
    { apply Hcand, is_candidate_spec in Hmem. destruct Hmem as (s & Hs & _). eauto. }
    destruct (issubdtype_number rt (dtype i)) as [e|b]; simpl; split.
    + intros _. left. eauto.
    + intros _. eauto.
    + intros (e & H). discriminate H.
    + intros [(_ & e & H)|(Hn & _)]; [discriminate H|].
      destruct Hs as (s & Hs). congruence.
  - assert (Hnot : ~ In n (candidates (collect f))).
    { intros H. apply PySetFacts.mem_In in H. congruence. }
    destruct (candidate_lens rt f) as (lens & Hl & Hx). rewrite Hl. simpl.
    destruct (shape i) as [s|] eqn:Hs.
    + destruct (any_aligned_some s lens) as (b & Hb & _). rewrite Hb. simpl. split.
      * intros (e & H). discriminate H.
      * intros [(H & _)|(H & _)]; [contradiction | discriminate H].
    + rewrite any_aligned_none. destruct lens as [|x lens]; simpl; split.
      * intros (e & H). discriminate H.
      * intros [(H & _)|(_ & c & ci & x & rest & H)]; [contradiction|].
        assert (F : In x []) by (apply Hx; exists c, ci, rest; exact H).
        destruct F.
      * intros _. right. split; [reflexivity|].
        destruct (proj1 (Hx x) (or_introl eq_refl)) as (c & ci & rest & H).
        exists c, ci, x, rest. exact H.
      * intros _. eauto.
Qed.

(** X5.  A descriptor of the collection is left out of all three groups
    exactly when it is a candidate whose type tag numpy does not
    understand, or it has no shape while some candidate has a non-empty
    shape.  In every other case it is in a group. *)
Theorem X5_dropped_exactly_when_raising
  (rt : Runtime) (f : h5file) (n : string) (i : Info) :
  In (n, i) (datasets_info (final_store rt f)) ->
  exists c,
    returned rt f = inr c
    /\ (dropped c i <-> raises rt (final_store rt f) n i)
    /\ (~ raises rt (final_store rt f) n i -> exists r, assigned c i r).
Proof.
  rewrite returned_classified. intros Hin.
  exists (classified rt f). split; [reflexivity|].
  rewrite final_datasets_info in Hin.
  rewrite <- (node_role_raises rt f n i Hin).
  destruct (node_role rt (collect f) (candidates (collect f)) n i) as [e|r] eqn:E.
  - split; [split|].
    + intros _. eauto.
    + intros _. eapply raise_dropped; eauto.
    + intros H. exfalso. apply H. eauto.
  - pose proof (role_assigned rt f n i r Hin E) as Ha. split; [split|].
    + intros Hd. exfalso. apply (Hd r), Ha.
    + intros (e & H). discriminate H.
    + intros _. eauto.
Qed.

(** The dataset without shape next to the axis of length 100 is dropped. *)
Lemma X5_dropped_exactly_when_raising_witness :
  exists c, returned rt_fifo file_null = inr c /\ dropped c comment_info.
Proof.
  destruct (X5_dropped_exactly_when_raising rt_fifo file_null "entry/comment" comment_info)
    as (c & Hc & Hd & _).
  - vm_compute. auto.
  - exists c. split; [exact Hc|]. apply Hd. right. split; [reflexivity|].
    exists "entry/energy", energy_info, 100%Z, []. vm_compute. auto.
Defined.

(** ** What the members of each group look like *)

(** X6.  Every measure has a shape of rank two or more and no non-empty
    axis label, is not a candidate, and shares one of its axis lengths with
    the first axis of some candidate.  A rank-1 array, a scalar and a
    dataset without shape are never measures. *)
Theorem X6_measures_have_rank_two_or_more
  (rt : Runtime) (f : h5file) (c : Classification) (i : Info) :
  returned rt f = inr c ->
  In i (measures c) ->
  exists s,
    shape i = Some s
    /\ (2 <= length s)%nat
    /\ (forall l, In (Some l) (dims i) -> l = "")
    /\ ~ In (path i) (dim_candidates (final_store rt f))
    /\ exists cn ci x rest,
         In cn (dim_candidates (final_store rt f))
         /\ In (cn, ci) (datasets_info (final_store rt f))
         /\ shape ci = Some (x :: rest)
         /\ In x s.
Proof.
  rewrite returned_classified, final_datasets_info, final_dim_candidates.
  intros Hc Hin. inversion Hc; subst c. clear Hc.
  apply (members_In rt f Measure i) in Hin. destruct Hin as (n & Hin & Hr).
  assert (Hp : path i = n) by (apply (proj2 (collect_keyed f)), Hin).
  rewrite Hp.
  pose proof (candidate_of_entry _ _ _ (collect_keyed f) Hin) as Hcand.
  unfold node_role in Hr.
  destruct (PySet.mem n (candidates (collect f))) eqn:Hmem.
  - destruct (issubdtype_number rt (dtype i)) as [e|b]; simpl in Hr; [discriminate|].
    destruct (b || PyStr.contains "time" (PyStr.lower n)); discriminate.
  - assert (Hnot : ~ In n (candidates (collect f))).
    { intros H. apply PySetFacts.mem_In in H. congruence. }
    destruct (candidate_lens rt f) as (lens & Hl & Hx). rewrite Hl in Hr. simpl in Hr.
    destruct (shape i) as [s|] eqn:Hs.
    + destruct (any_aligned_some s lens) as (b & Hb & Hspec).
      rewrite Hb in Hr. simpl in Hr. destruct b; [|discriminate].
      destruct (proj1 Hspec eq_refl) as (Hne & x & Hxl & Hxs).
      assert (Hnc : ~ (length s = 1%nat \/ exists l, In (Some l) (dims i) /\ l <> "")).
      { intros H. apply Hnot, Hcand, is_candidate_spec. exists s. auto. }
      exists s. split; [reflexivity|]. split; [|split; [|split]].
      * destruct s as [|a [|b s]]; simpl in *; [congruence | tauto | lia].
      * intros l Hl'. destruct (String.eqb_spec l ""); [assumption|].
        exfalso. apply Hnc. right. eauto.
      * exact Hnot.
      * apply Hx in Hxl. destruct Hxl as (cn & ci & rest & H1 & H2 & H3).
        exists cn, ci, x, rest. auto.
    + rewrite any_aligned_none in Hr. destruct lens; simpl in Hr; discriminate.
Qed.

(** Scenario A: the measure ["y"] has rank 2. *)
Lemma X6_measures_have_rank_two_or_more_witness :
  exists s, shape y_info = Some s /\ (2 <= length s)%nat.
Proof.
  destruct (X6_measures_have_rank_two_or_more rt_fifo scenario_A
              (mkClassification [y_info] [x_info] [mkInfo "units" (Some []) "object" [] []])
              y_info) as (s & Hs & Hlen & _).
  - vm_compute. reflexivity.
  - left. reflexivity.
  - exists s. auto.
Defined.

(** X7.  Every dimension is a candidate: it has a shape, of rank one or
    with a non-empty axis label, and its type is numeric or its path
    contains "time". *)
Theorem X7_dimensions_are_candidates
  (rt : Runtime) (f : h5file) (c : Classification) (i : Info) :
  returned rt f = inr c ->
  In i (dimensions c) ->
  In (path i) (dim_candidates (final_store rt f))
  /\ (exists s, shape i = Some s
                /\ (length s = 1%nat \/ exists l, In (Some l) (dims i) /\ l <> ""))
  /\ (issubdtype_number rt (dtype i) = inr true
      \/ PyStr.contains "time" (PyStr.lower (path i)) = true).
Proof.
  rewrite returned_classified, final_dim_candidates.
  intros Hc Hin. inversion Hc; subst c. clear Hc.
  apply (members_In rt f Dimension i) in Hin. destruct Hin as (n & Hin & Hr).
  assert (Hp : path i = n) by (apply (proj2 (collect_keyed f)), Hin).
  rewrite Hp.
  pose proof (candidate_of_entry _ _ _ (collect_keyed f) Hin) as Hcand.
  unfold node_role in Hr.
  destruct (PySet.mem n (candidates (collect f))) eqn:Hmem.
  - apply PySetFacts.mem_In in Hmem. split; [exact Hmem|]. split.
    + apply is_candidate_spec, Hcand, Hmem.
    + destruct (issubdtype_number rt (dtype i)) as [e|b]; simpl in Hr; [discriminate|].
      destruct b; [left; reflexivity|]. right.
      destruct (PyStr.contains "time" (PyStr.lower n)); [reflexivity|].
      simpl in Hr. discriminate.
  - destruct (dim_lens (collect f) (set_iter rt (candidates (collect f))))
      as [e|lens]; simpl in Hr; [discriminate|].
    destruct (any_aligned (shape i) lens) as [e|b]; simpl in Hr; [discriminate|].
    destruct b; discriminate.
Qed.

Lemma X7_dimensions_are_candidates_witness :
  In (path temperature_info) (dim_candidates (final_store rt_fifo scenario_C)).
Proof.
  apply (X7_dimensions_are_candidates rt_fifo scenario_C
           (mkClassification [] [temperature_info] []) temperature_info).
  - vm_compute. reflexivity.
  - left. reflexivity.
Defined.

(** ** A file without candidates *)

Lemma set_iter_empty (rt : Runtime) : set_iter rt [] = [].
Proof.
  destruct (set_iter rt []) as [|x l] eqn:E; [reflexivity|].
  exfalso. apply (proj1 (set_iter_elements rt [] x)). rewrite E. left. reflexivity.
Qed.

Lemma filter_all {A} (p : A -> bool) (l : list A) :
  (forall x, In x l -> p x = true) -> filter p l = l.
Proof.
  induction l as [|x l IH]; simpl; intros H; [reflexivity|].
  rewrite (H x) by auto. rewrite IH by auto. reflexivity.
Qed.

Lemma filter_none {A} (p : A -> bool) (l : list A) :
  (forall x, In x l -> p x = false) -> filter p l = [].
Proof.
  induction l as [|x l IH]; simpl; intros H; [reflexivity|].
  rewrite (H x) by auto. apply IH. auto.
Qed.

(** X8.  When the candidate set is empty (no dataset of rank one, none
    with a non-empty label), every descriptor is an attribute, in the order
    of the collection: there is no measure and no dimension, and nothing is
    dropped, not even a dataset without shape. *)
Theorem X8_no_candidate_all_attributes (rt : Runtime) (f : h5file) :
  dim_candidates (final_store rt f) = [] ->
  returned rt f
  = inr (mkClassification [] [] (map snd (datasets_info (final_store rt f)))).
Proof.
  rewrite final_dim_candidates, final_datasets_info, returned_classified.
  intros Hc. unfold classified, members. rewrite Hc.
  assert (Hrole : forall ni, node_role rt (collect f) [] (fst ni) (snd ni) = inr Attribute).
  { intros ni. unfold node_role. simpl. rewrite set_iter_empty. simpl.
    destruct (shape (snd ni)); reflexivity. }
  rewrite (filter_none (has_role rt (collect f) [] Measure)),
          (filter_none (has_role rt (collect f) [] Dimension)),
          (filter_all (has_role rt (collect f) [] Attribute));
    try reflexivity; intros ni _; unfold has_role; rewrite Hrole; reflexivity.
Qed.

Lemma X8_no_candidate_all_attributes_witness :
  returned rt_fifo file_no_axis
  = inr (mkClassification [] []
           (map snd (datasets_info (final_store rt_fifo file_no_axis)))).
Proof.
  apply (X8_no_candidate_all_attributes rt_fifo file_no_axis). reflexivity.
Defined.

(** ** Counting the members of the groups *)

Lemma map_injective_on {A B} (g : A -> B) (l : list A) (a b : A) :
  NoDup (map g l) -> In a l -> In b l -> g a = g b -> a = b.
Proof.
  induction l as [|x l IH]; simpl; intros Hnd Ha Hb E; [contradiction|].
  inversion Hnd as [|? ? Hx Hl]; subst.
  destruct Ha as [->|Ha], Hb as [->|Hb]; auto.
  - exfalso. apply Hx. rewrite E. apply in_map, Hb.
  - exfalso. apply Hx. rewrite <- E. apply in_map, Ha.
Qed.

Lemma filter_NoDup_map {A B} (g : A -> B) (p : A -> bool) (l : list A) :
  NoDup (map g l) -> NoDup (map g (filter p l)).
Proof.
  induction l as [|x l IH]; simpl; intros Hnd; [constructor|].
  inversion Hnd as [|? ? Hx Hl]; subst.
  destruct (p x); simpl; [|auto].
  constructor; [|auto].
  intros Hin. apply Hx. apply in_map_iff in Hin.
  destruct Hin as (y & Ey & Hy). apply filter_In in Hy.
  apply in_map_iff. exists y. tauto.
Qed.

Lemma three_filters_NoDup {A B} (g : A -> B) (p1 p2 p3 : A -> bool) (l : list A) :
  NoDup (map g l) ->
  (forall x, p1 x = true -> p2 x = false /\ p3 x = false) ->
  (forall x, p2 x = true -> p3 x = false) ->
  NoDup (map g (filter p1 l ++ filter p2 l ++ filter p3 l)).
Proof.
  intros Hnd H1 H2. rewrite !map_app.
  assert (Hsame : forall p q a,
             In a (map g (filter p l)) -> In a (map g (filter q l)) ->
             exists x, p x = true /\ q x = true).
  { intros p q a Hp Hq. apply in_map_iff in Hp, Hq.
    destruct Hp as (x & Ex & Hx), Hq as (y & Ey & Hy).
    apply filter_In in Hx, Hy. destruct Hx as [Hx Hpx], Hy as [Hy Hqy].
    assert (x = y) by (apply (map_injective_on g l); congruence).
    subst. eauto. }
  apply NoDup_app; [apply filter_NoDup_map, Hnd | apply NoDup_app |].
  - apply filter_NoDup_map, Hnd.
  - apply filter_NoDup_map, Hnd.
  - intros a Ha Hb. destruct (Hsame _ _ _ Ha Hb) as (x & Hx2 & Hx3).
    apply H2 in Hx2. congruence.
  - intros a Ha Hb. apply in_app_or in Hb. destruct Hb as [Hb|Hb];
      destruct (Hsame _ _ _ Ha Hb) as (x & Hx1 & Hx');
      apply H1 in Hx1; destruct Hx1; congruence.
Qed.

Lemma has_role_exclusive (rt : Runtime) (di : list (string * Info)) (cands : list string)
  (r r' : role) (ni : string * Info) :
  has_role rt di cands r ni = true -> r' <> r -> has_role rt di cands r' ni = false.
Proof.
  unfold has_role. destruct (node_role rt di cands (fst ni) (snd ni)) as [e|r0];
    [discriminate|].
  destruct r0, r, r'; simpl; congruence.
Qed.

Lemma keyed_paths (di : list (string * Info)) (p : string * Info -> bool) :
  keyed di -> map path (map snd (filter p di)) = map fst (filter p di).
Proof.
  intros [_ Hp]. rewrite map_map. apply map_ext_in.
  intros [n i] H. apply filter_In in H. simpl. apply Hp, H.
Qed.

Lemma classified_paths_NoDup (rt : Runtime) (f : h5file) :
  NoDup (map path (measures (classified rt f) ++ dimensions (classified rt f)
                   ++ attributes (classified rt f))).
Proof.
  unfold classified, members. simpl.
  rewrite !map_app, !(keyed_paths _ _ (collect_keyed f)), <- !map_app.
  apply three_filters_NoDup.
  - apply collect_keyed.
  - intros x H. split; apply (has_role_exclusive _ _ _ _ _ _ H); discriminate.
  - intros x H. apply (has_role_exclusive _ _ _ _ _ _ H); discriminate.
Qed.

(** X9.  No path occurs twice in the classification: not twice in one
    group, and not in two groups. *)
Theorem X9_no_path_classified_twice (rt : Runtime) (f : h5file) :
  exists c,
    returned rt f = inr c
    /\ NoDup (map path (measures c ++ dimensions c ++ attributes c)).
Proof.
  exists (classified rt f). split; [apply returned_classified|].
  apply classified_paths_NoDup.
Qed.

(** ** When nothing is dropped *)

Lemma three_filters_Permutation {A} (p1 p2 p3 : A -> bool) (l : list A) :
  (forall x, In x l ->
     (p1 x = true /\ p2 x = false /\ p3 x = false)
     \/ (p1 x = false /\ p2 x = true /\ p3 x = false)
     \/ (p1 x = false /\ p2 x = false /\ p3 x = true)) ->
  Permutation l (filter p1 l ++ filter p2 l ++ filter p3 l).
Proof.
  induction l as [|x l IH]; intros H; simpl; [constructor|].
  assert (IH' : Permutation l (filter p1 l ++ filter p2 l ++ filter p3 l))
    by (apply IH; intros y Hy; apply H; right; exact Hy).
  destruct (H x (or_introl eq_refl)) as [(E1 & E2 & E3)|[(E1 & E2 & E3)|(E1 & E2 & E3)]];
    rewrite E1, E2, E3.
  - simpl. constructor. exact IH'.
  - apply Permutation_cons_app. exact IH'.
  - rewrite app_assoc. apply Permutation_cons_app. rewrite <- app_assoc. exact IH'.
Qed.

Lemma has_role_of_role (rt : Runtime) (di : list (string * Info)) (cands : list string)
  (ni : string * Info) (r : role) :
  node_role rt di cands (fst ni) (snd ni) = inr r ->
  forall r', has_role rt di cands r' ni = role_eqb r r'.
Proof. intros H r'. unfold has_role. rewrite H. reflexivity. Qed.

(** X10.  When every dataset has a shape and numpy understands every type
    tag, nothing is dropped: the three groups together are a rearrangement
    of the descriptor collection, each descriptor is in exactly one group,
    and the document has exactly one entry per dataset. *)
Theorem X10_partition_when_nothing_raises
  (rt : Runtime) (f : h5file) (dataset_name : string) :
  (forall n i, In (n, i) (datasets_info (final_store rt f)) ->
     (exists s, shape i = Some s)
     /\ (exists b, issubdtype_number rt (dtype i) = inr b)) ->
  exists c doc,
    returned rt f = inr c
    /\ fst (pipeline rt f dataset_name) = inr doc
    /\ Permutation (map snd (datasets_info (final_store rt f)))
                   (measures c ++ dimensions c ++ attributes c)
    /\ (forall n i, In (n, i) (datasets_info (final_store rt f)) ->
          exists r, assigned c i r)
    /\ length (variableMeasured doc) = length (datasets_info (final_store rt f)).
Proof.
  rewrite final_datasets_info, returned_classified, pipeline_run. intros Hok.
  assert (Hrole : forall n i, In (n, i) (collect f) ->
            exists r, node_role rt (collect f) (candidates (collect f)) n i = inr r).
  { intros n i Hin.
    destruct (node_role rt (collect f) (candidates (collect f)) n i) as [e|r] eqn:E;
      [|eauto].
    exfalso. assert (Hr : raises rt (final_store rt f) n i)
      by (apply node_role_raises; eauto).
    destruct (Hok n i Hin) as ((s & Hs) & (b & Hb)).
    destruct Hr as [(_ & e' & He')|(Hn & _)]; congruence. }
  assert (Hperm : Permutation (map snd (collect f))
                    (measures (classified rt f) ++ dimensions (classified rt f)
                     ++ attributes (classified rt f))).
  { unfold classified, members. simpl. rewrite <- !map_app. apply Permutation_map.
    apply three_filters_Permutation. intros [n i] Hin.
    destruct (Hrole n i Hin) as (r & Hr).
    rewrite !(has_role_of_role rt _ _ (n, i) r Hr).
    destruct r; simpl; tauto. }
  exists (classified rt f). eexists.
  split; [reflexivity|]. split; [simpl; apply build_jsonld_run|].
  split; [exact Hperm|]. split.
  - intros n i Hin. destruct (Hrole n i Hin) as (r & Hr).
    exists r. eapply role_assigned; eauto.
  - simpl. rewrite !length_app, !length_map.
    apply Permutation_length in Hperm.
    rewrite !length_app, length_map in Hperm. symmetry. exact Hperm.
Qed.

(** Scenario A: three datasets, three entries. *)
Lemma X10_partition_when_nothing_raises_witness :
  exists doc,
    fst (pipeline rt_fifo scenario_A "Example HDF5 Dataset") = inr doc
    /\ length (variableMeasured doc) = 3%nat.
Proof.
  destruct (X10_partition_when_nothing_raises rt_fifo scenario_A "Example HDF5 Dataset")
    as (c & doc & _ & Hdoc & _ & _ & Hlen).
  - intros n i H. vm_compute in H.
    destruct H as [H|[H|[H|[]]]]; inversion H; subst; split; eexists; reflexivity.
  - exists doc. split; [exact Hdoc|]. rewrite Hlen. reflexivity.
Defined.

(** X11.  No dataset is listed twice in the document of the pipeline: the
    [dataset] fields of its entries are pairwise different. *)
Theorem X11_document_lists_each_dataset_once
  (rt : Runtime) (f : h5file) (dataset_name : string) :
  exists doc,
    fst (pipeline rt f dataset_name) = inr doc
    /\ NoDup (map dataset (variableMeasured doc)).
Proof.
  rewrite pipeline_run. eexists. split; [simpl; apply build_jsonld_run|]. simpl.
  pose proof (classified_paths_NoDup rt f) as H.
  rewrite !map_app, !map_map in *. simpl.
  set (l := map path (measures (classified rt f)) ++ map path (dimensions (classified rt f))
            ++ map path (attributes (classified rt f))) in *.
  assert (E : map (fun x => ("/" ++ path x)%string) (measures (classified rt f))
              ++ map (fun x => ("/" ++ path x)%string) (dimensions (classified rt f))
              ++ map (fun x => ("/" ++ path x)%string) (attributes (classified rt f))
              = map (String "/") l).
  { unfold l. rewrite !map_app, !map_map. reflexivity. }
  simpl in E. rewrite E. clear E.
  induction l as [|x l IH]; simpl; [constructor|].
  inversion H as [|? ? Hx Hl]; subst. constructor; [|apply IH, Hl].
  intros Hin. apply in_map_iff in Hin. destruct Hin as (y & Ey & Hy).
  inversion Ey; subst. contradiction.
Qed.

(** ** What is printed *)

Lemma candidate_log_length (l : list (string * Info)) :
  length (candidate_log l) = length (filter no_shape l).
Proof.
  unfold candidate_log. induction l as [|ni l IH]; simpl; [reflexivity|].
  unfold no_shape at 1. destruct (shape (snd ni)); simpl; rewrite IH; reflexivity.
Qed.

Lemma classify_lines_length (rt : Runtime) (di l : list (string * Info))
  (cands : list string) :
  (length (flat_map (classify_lines rt di cands) l)
   + length (filter (has_role rt di cands Measure) l)
   + length (filter (has_role rt di cands Dimension) l)
   + length (filter (has_role rt di cands Attribute) l)
   = 2 * length l)%nat.
Proof.
  induction l as [|ni l IH]; [reflexivity|].
  cbn [flat_map filter length]. rewrite length_app.
  assert (E : forall r,
            has_role rt di cands r ni
            = match node_role rt di cands (fst ni) (snd ni) with
              | inr r' => role_eqb r' r
              | inl _ => false
              end) by reflexivity.
  rewrite !E. unfold classify_lines at 1.
  destruct (node_role rt di cands (fst ni) (snd ni)) as [e|r].
  - cbn [length]. lia.
  - destruct r; cbn [role_eqb length]; lia.
Qed.

(** X21.  The lines printed account for every descriptor: one line per
    descriptor without shape in the first loop, one line per descriptor in
    the second loop, and one more line for each descriptor that ends up in
    no group.  So the number of lines plus the number of classified
    descriptors is twice the size of the collection plus the number of
    descriptors without shape. *)
Theorem X21_printed_lines_account_for_drops (rt : Runtime) (f : h5file) :
  exists c,
    returned rt f = inr c
    /\ (length (stdout (final_store rt f))
        + (length (measures c) + length (dimensions c) + length (attributes c))
        = 2 * length (datasets_info (final_store rt f))
          + length (filter no_shape (datasets_info (final_store rt f))))%nat.
Proof.
  exists (classified rt f). split; [apply returned_classified|].
  rewrite final_stdout, final_datasets_info, length_app, candidate_log_length.
  unfold classify_log, classified, members. simpl. rewrite !length_map.
  pose proof (classify_lines_length rt (collect f) (collect f) (candidates (collect f))).
  lia.
Qed.

(** ** The order of the visit *)

Lemma mem_ext (x : string) (s s' : list string) :
  (In x s <-> In x s') -> PySet.mem x s = PySet.mem x s'.
Proof.
  intros H. destruct (PySet.mem x s) eqn:E, (PySet.mem x s') eqn:E'; try reflexivity.
  - apply PySetFacts.mem_In, H, PySetFacts.mem_In in E. congruence.
  - apply PySetFacts.mem_In, H, PySetFacts.mem_In in E'. congruence.
Qed.

(** The outcome for a descriptor depends on the collection only through
    the entries it holds, not through their order. *)
Lemma node_role_same_entries (rt : Runtime) (f f' : h5file) :
  (forall n i, In (n, i) (collect f) <-> In (n, i) (collect f')) ->
  forall n i,
    node_role rt (collect f) (candidates (collect f)) n i
    = node_role rt (collect f') (candidates (collect f')) n i.
Proof.
  intros Hsame n i.
  assert (Hc : forall c, In c (candidates (collect f)) <-> In c (candidates (collect f'))).
  { intros c. rewrite !candidates_In. split; intros (j & Hj & Hcj); exists j;
      (split; [apply Hsame; exact Hj | exact Hcj]). }
  unfold node_role. rewrite (mem_ext n _ _ (Hc n)).
  destruct (PySet.mem n (candidates (collect f'))); [reflexivity|].
  destruct (candidate_lens rt f) as (l & El & Sl).
  destruct (candidate_lens rt f') as (l' & El' & Sl').
  rewrite El, El'. simpl.
  rewrite (any_aligned_ext (shape i) l l'); [reflexivity|].
  intros x. rewrite Sl, Sl'.
  split; intros (c & j & rest & H1 & H2 & H3); exists c, j, rest;
    (split; [apply Hc; exact H1 | split; [apply Hsame; exact H2 | exact H3]]).
Qed.

(** X12.  The order in which the objects are visited does not change the
    group of any dataset: when the objects of a file, under pairwise
    different names, are visited in another order, each group has the same
    members. *)
Theorem X12_visit_order_irrelevant (rt : Runtime) (f f' : h5file) :
  Permutation f f' ->
  NoDup (map fst f) ->
  exists c c',
    returned rt f = inr c
    /\ returned rt f' = inr c'
    /\ forall r i, In i (group r c) <-> In i (group r c').
Proof.
  intros Hperm Hnd.
  assert (Hnd' : NoDup (map fst f'))
    by (eapply Permutation_NoDup; [apply Permutation_map, Hperm | exact Hnd]).
  assert (Hsame : forall n i, In (n, i) (collect f) <-> In (n, i) (collect f')).
  { intros n i. unfold collect.
    rewrite !fold_visit_fresh by (assumption || (intros k _ [])). simpl.
    rewrite !in_flat_map. split; intros (no & Hno & H); exists no; (split; [|exact H]).
    - eapply Permutation_in; eauto.
    - eapply Permutation_in; [apply Permutation_sym|]; eauto. }
  exists (classified rt f), (classified rt f').
  split; [apply returned_classified|]. split; [apply returned_classified|].
  intros r i. rewrite !members_In.
  split; intros (n & Hin & Hr); exists n; (split; [apply Hsame; exact Hin|]).
  - rewrite <- (node_role_same_entries rt f f' Hsame). exact Hr.
  - rewrite (node_role_same_entries rt f f' Hsame). exact Hr.
Qed.

(** Scenario A visited backwards: ["y"] is still the one measure. *)
Lemma X12_visit_order_irrelevant_witness :
  exists c', returned rt_fifo (rev scenario_A) = inr c' /\ In y_info (measures c').
Proof.
  destruct (X12_visit_order_irrelevant rt_fifo scenario_A (rev scenario_A))
    as (c & c' & Hc & Hc' & H).
  - apply Permutation_rev.
  - vm_compute. repeat constructor; simpl; intuition discriminate.
  - exists c'. split; [exact Hc'|].
    apply (H Measure y_info). vm_compute in Hc. inversion Hc. left. reflexivity.
Defined.

(** ** The field ["attrs"] plays no part in the classification *)

Section SameButAttrs.

Variable rt : Runtime.

Lemma dict_set_related (k : string) (v v' : Info) (d d' : list (string * Info)) :
  Forall2 same_entry_but_attrs_field d d' ->
  same_but_attrs_field v v' ->
  Forall2 same_entry_but_attrs_field (PyDict.set k v d) (PyDict.set k v' d').
Proof.
  intros H Hv. induction H as [|[n i] [n' i'] d d' [Hn Hi] H IH]; simpl in *.
  - constructor; [split; [reflexivity | exact Hv] | constructor].
  - subst n'. destruct (String.eqb n k).
    + constructor; [split; [reflexivity | exact Hv] | exact H].
    + constructor; [split; [reflexivity | exact Hi] | exact IH].
Qed.

Lemma collect_related (f f' : h5file) :
  Forall2 same_visit_but_attrs_items f f' ->
  Forall2 same_entry_but_attrs_field (collect f) (collect f').
Proof.
  unfold collect.
  assert (G : forall d d', Forall2 same_entry_but_attrs_field d d' ->
                           Forall2 same_visit_but_attrs_items f f' ->
                           Forall2 same_entry_but_attrs_field (fold_left visit_step f d)
                                                        (fold_left visit_step f' d')).
  { intros d d' Hd H. revert d d' Hd.
    induction H as [|[n o] [n' o'] f f' [Hn Ho] H IH]; intros d d' Hd; simpl; [exact Hd|].
    apply IH. unfold visit_step. simpl in *. subst n'.
    destruct o as [|x], o' as [|x']; try contradiction; [exact Hd|].
    apply dict_set_related; [exact Hd|].
    destruct Ho as (H1 & H2 & H3). repeat split; assumption. }
  apply G. constructor.
Qed.

Lemma is_candidate_related (i i' : Info) :
  same_but_attrs_field i i' -> is_candidate i = is_candidate i'.
Proof.
  intros (_ & Hs & _ & Hd). unfold is_candidate. rewrite Hs, Hd. reflexivity.
Qed.

Lemma candidates_related (d d' : list (string * Info)) :
  Forall2 same_entry_but_attrs_field d d' -> candidates d = candidates d'.
Proof.
  unfold candidates. generalize (@nil string).
  intros s H. revert s. induction H as [|[n i] [n' i'] d d' [Hn Hi] H IH]; intros s; simpl;
    [reflexivity|].
  simpl in *. subst n'. rewrite (is_candidate_related i i' Hi). apply IH.
Qed.

Lemma shape_of_related (d d' : list (string * Info)) (k : string) :
  Forall2 same_entry_but_attrs_field d d' -> shape_of d k = shape_of d' k.
Proof.
  intros H. unfold shape_of.
  induction H as [|[n i] [n' i'] d d' [Hn Hi] H IH]; simpl; [reflexivity|].
  simpl in *. subst n'. destruct (String.eqb n k); [|exact IH].
  simpl. destruct Hi as (_ & Hs & _). rewrite Hs. reflexivity.
Qed.

Lemma dim_lens_related (d d' : list (string * Info)) (cs : list string) :
  Forall2 same_entry_but_attrs_field d d' -> dim_lens d cs = dim_lens d' cs.
Proof.
  intros H. induction cs as [|c cs IH]; simpl; [reflexivity|].
  rewrite (shape_of_related d d' c H), IH. reflexivity.
Qed.

Lemma node_role_related (d d' : list (string * Info)) (cands : list string)
  (n : string) (i i' : Info) :
  Forall2 same_entry_but_attrs_field d d' -> same_but_attrs_field i i' ->
  node_role rt d cands n i = node_role rt d' cands n i'.
Proof.
  intros H (_ & Hs & Ht & _). unfold node_role.
  rewrite (dim_lens_related d d' _ H), Hs, Ht. reflexivity.
Qed.

Lemma members_paths_related (d d' l l' : list (string * Info)) (cands : list string)
  (r : role) :
  Forall2 same_entry_but_attrs_field d d' ->
  Forall2 same_entry_but_attrs_field l l' ->
  map path (map snd (filter (has_role rt d cands r) l))
  = map path (map snd (filter (has_role rt d' cands r) l')).
Proof.
  intros Hd H. induction H as [|[n i] [n' i'] l l' [Hn Hi] H IH]; simpl; [reflexivity|].
  simpl in *. subst n'.
  assert (E : has_role rt d cands r (n, i) = has_role rt d' cands r (n, i')).
  { unfold has_role. simpl. rewrite (node_role_related d d' cands n i i' Hd Hi).
    reflexivity. }
  rewrite E. destruct (has_role rt d' cands r (n, i')); [|exact IH].
  simpl. rewrite IH. destruct Hi as (Hp & _). rewrite Hp. reflexivity.
Qed.

Lemma candidate_log_related (l l' : list (string * Info)) :
  Forall2 same_entry_but_attrs_field l l' -> candidate_log l = candidate_log l'.
Proof.
  intros H. unfold candidate_log.
  induction H as [|[n i] [n' i'] l l' [Hn Hi] H IH]; simpl; [reflexivity|].
  simpl in *. subst n'. rewrite IH. destruct Hi as (_ & Hs & _ & Hd).
  unfold diagnostic. simpl. rewrite Hs, Hd. reflexivity.
Qed.

Lemma classify_lines_related (d d' l l' : list (string * Info)) (cands : list string) :
  Forall2 same_entry_but_attrs_field d d' ->
  Forall2 same_entry_but_attrs_field l l' ->
  flat_map (classify_lines rt d cands) l = flat_map (classify_lines rt d' cands) l'.
Proof.
  intros Hd H. induction H as [|[n i] [n' i'] l l' [Hn Hi] H IH]; [reflexivity|].
  cbn [flat_map]. simpl in Hn, Hi. subst n'. rewrite IH.
  assert (E : classify_lines rt d cands (n, i) = classify_lines rt d' cands (n, i')).
  { unfold classify_lines. simpl. rewrite (node_role_related d d' cands n i i' Hd Hi).
    destruct Hi as (_ & Hs & _ & Hdm). unfold diagnostic. simpl. rewrite Hs, Hdm.
    reflexivity. }
  rewrite E. reflexivity.
Qed.

(** X13.  The classifier never reads the field ["attrs"] of a
    descriptor: two visits that agree, object by object, on the name, on
    [obj.shape], on [str(obj.dtype)] and on the labels of [obj.dims], and
    differ only in what [obj.attrs.items()] yields, give groups with the
    same paths in the same order, and the same lines are printed.  (A
    change of the labels, which the file keeps in the attribute
    DIMENSION_LABELS, is a change of [obj.dims] and is not covered.) *)
Theorem X13_attrs_field_does_not_classify (f f' : h5file) :
  Forall2 same_visit_but_attrs_items f f' ->
  exists c c',
    returned rt f = inr c
    /\ returned rt f' = inr c'
    /\ (forall r, map path (group r c) = map path (group r c'))
    /\ stdout (final_store rt f) = stdout (final_store rt f').
Proof.
  intros H. apply collect_related in H.
  exists (classified rt f), (classified rt f').
  split; [apply returned_classified|]. split; [apply returned_classified|]. split.
  - intros r.
    assert (E : forall g, group r (classified rt g) = members rt (collect g) r)
      by (intros g; destruct r; reflexivity).
    rewrite !E. unfold members. rewrite (candidates_related _ _ H).
    apply members_paths_related; exact H.
  - rewrite !final_stdout. unfold classify_log.
    rewrite (candidate_log_related _ _ H), (candidates_related _ _ H).
    rewrite (classify_lines_related _ _ _ _ _ H H). reflexivity.
Qed.

End SameButAttrs.

(** Scenario A with and without attributes. *)
Lemma X13_attrs_field_does_not_classify_witness :
  exists c', returned rt_fifo scenario_A_with_attrs = inr c'
             /\ map path (measures c') = ["y"].
Proof.
  destruct (X13_attrs_field_does_not_classify rt_fifo scenario_A scenario_A_with_attrs)
    as (c & c' & Hc & Hc' & Hg & _).
  - repeat constructor.
  - exists c'. split; [exact Hc'|]. change (measures c') with (group Measure c').
    rewrite <- (Hg Measure). vm_compute in Hc. inversion Hc. reflexivity.
Defined.

(** ** [checkForBytes] and the text it returns *)

(** X14.  A numpy byte string that is well-formed UTF-8 (ASCII text in
    particular) is returned as text with exactly the same bytes: nothing is
    replaced. *)
Theorem X14_wellformed_bytes_unchanged (b : list byte) (t : string) :
  Utf8.decode b Utf8.strict = inr t ->
  exists s,
    checkForBytes (NpBytes b) = inr (Some s)
    /\ s = t
    /\ list_byte_of_string s = b.
Proof.
  intros H. apply Utf8Facts.strict_replace in H. destruct H as [Hr ->].
  exists (string_of_list_byte b). split; [|split].
  - unfold checkForBytes. rewrite Hr. reflexivity.
  - reflexivity.
  - apply list_byte_of_string_of_list_byte.
Qed.

(** The two bytes C2 B5 of the micro sign, followed by "m". *)
Lemma X14_wellformed_bytes_unchanged_witness :
  exists s, checkForBytes (NpBytes [xc2; xb5; x6d]) = inr (Some s)
            /\ list_byte_of_string s = [xc2; xb5; x6d].
Proof.
  destruct (X14_wellformed_bytes_unchanged [xc2; xb5; x6d]
              (string_of_list_byte [xc2; xb5; x6d]) eq_refl) as (s & H1 & _ & H2).
  exists s. auto.
Defined.

Module Utf8Wellformed.
Import Utf8.

Lemma reached_start : utf8_reached Start.
Proof. intros rest. reflexivity. Qed.

Lemma clean_bad : utf8_clean Bad.
Proof. intros rest. reflexivity. Qed.

(** One step keeps the decoder in a reached state and emits clean items. *)
Lemma step_clean (st : dstate) (b : byte) :
  utf8_reached st ->
  Forall utf8_clean (fst (step st b)) /\ utf8_reached (snd (step st b)).
Proof.
  intros Hst.
  assert (Hstart : Forall utf8_clean (fst (start b)) /\ utf8_reached (snd (start b))).
  { destruct (Utf8Facts.start_shape b) as [(st0 & E & Hp)|[E|E]]; rewrite E; simpl.
    - split; [constructor|]. intros rest. rewrite Hp. simpl. rewrite E. reflexivity.
    - split; [|apply reached_start]. constructor; [|constructor].
      intros rest. simpl. rewrite E. reflexivity.
    - split; [|apply reached_start]. constructor; [apply clean_bad | constructor]. }
  destruct st as [|seen need lo hi]; [exact Hstart|].
  simpl. destruct (between lo hi (Byte.to_N b)) eqn:Hb.
  - assert (Hrun : forall rest,
              run Start ((seen ++ [b]) ++ rest)
              = (let '(out, st') := step (Pending seen need lo hi) b in out ++ run st' rest)).
    { intros rest. rewrite <- app_assoc. apply (Hst (b :: rest)). }
    simpl in Hrun. rewrite Hb in Hrun.
    destruct need as [|[|k]]; simpl; split.
    + constructor; [intros rest; apply Hrun | constructor].
    + apply reached_start.
    + constructor; [intros rest; apply Hrun | constructor].
    + apply reached_start.
    + constructor.
    + intros rest. apply Hrun.
  - destruct (start b) as [out st0]. simpl in *. destruct Hstart as [H1 H2].
    split; [constructor; [apply clean_bad | exact H1] | exact H2].
Qed.

Lemma run_clean (input : list byte) :
  forall st, utf8_reached st -> Forall utf8_clean (run st input).
Proof.
  induction input as [|b rest IH]; intros st Hst; simpl.
  - destruct st; constructor; [apply clean_bad | constructor].
  - destruct (step_clean st b Hst) as [H1 H2].
    destruct (step st b) as [out st']. simpl in *.
    apply Forall_app. split; [exact H1 | apply IH, H2].
Qed.

Lemma rerun_clean (items : list item) :
  Forall utf8_clean items ->
  run Start (flat_map render items) = map (fun i => Scalar (render i)) items.
Proof.
  induction 1 as [|i items Hi H IH]; simpl; [reflexivity|].
  rewrite Hi, IH. reflexivity.
Qed.

(** What [errors="replace"] returns is well-formed: it decodes strictly,
    to itself. *)
Lemma replace_is_wellformed (input : list byte) (s : string) :
  decode input replace = inr s ->
  decode (list_byte_of_string s) strict = inr s.
Proof.
  intros H. unfold decode in H. injection H as <-.
  rewrite list_byte_of_string_of_list_byte. unfold decode.
  rewrite (rerun_clean _ (run_clean input Start reached_start)).
  generalize (run Start input). intros items.
  assert (Hbad : existsb is_bad (map (fun i => Scalar (render i)) items) = false)
    by (induction items; simpl; auto).
  assert (Hr : flat_map render (map (fun i => Scalar (render i)) items)
               = flat_map render items).
  { clear Hbad. induction items as [|i l IHl]; simpl; [|rewrite IHl]; reflexivity. }
  rewrite Hbad, Hr. reflexivity.
Qed.

End Utf8Wellformed.

(** X15.  The text that [checkForBytes] returns for a numpy byte string is
    always well-formed UTF-8, whatever the bytes were: decoding its bytes
    with [errors="strict"] succeeds and gives the same text. *)
Theorem X15_returned_text_is_wellformed (b : list byte) :
  exists s,
    checkForBytes (NpBytes b) = inr (Some s)
    /\ Utf8.decode (list_byte_of_string s) Utf8.strict = inr s.
Proof.
  destruct (Utf8Facts.replace_total b) as (s & Hs).
  exists s. split.
  - unfold checkForBytes. rewrite Hs. reflexivity.
  - apply Utf8Wellformed.replace_is_wellformed with (input := b). exact Hs.
Qed.

(** * Properties of [xdi.py] *)

Module XdiFacts.
Import Xdi.

Lemma get_set_same {V} (k : string) (v : V) (d : list (string * V)) :
  PyDict.get k (PyDict.set k v d) = inr v.
Proof.
  induction d as [|[k0 v0] r IH]; simpl.
  - rewrite String.eqb_refl. reflexivity.
  - destruct (String.eqb_spec k0 k) as [->|Hne]; simpl.
    + rewrite String.eqb_refl. reflexivity.
    + destruct (String.eqb_spec k0 k); [contradiction | exact IH].
Qed.

Lemma get_set_other {V} (k k' : string) (v : V) (d : list (string * V)) :
  k' <> k -> PyDict.get k' (PyDict.set k v d) = PyDict.get k' d.
Proof.
  intros Hne. induction d as [|[k0 v0] r IH]; simpl.
  - destruct (String.eqb_spec k k'); [congruence | reflexivity].
  - destruct (String.eqb_spec k0 k) as [->|Hk]; simpl.
    + destruct (String.eqb_spec k k'); [congruence | reflexivity].
    + destruct (String.eqb_spec k0 k'); [reflexivity | exact IH].
Qed.

Lemma concat_cons (sep x : string) (l : list string) :
  l <> [] -> String.concat sep (x :: l) = (x ++ sep ++ String.concat sep l)%string.
Proof. destruct l; [congruence | reflexivity]. Qed.

Lemma new_path (os : Os) :
  PyDict.get "PATH" (environ (add_dot2path os))
  = inr (abs_curdir os ++ String (path_sep os) EmptyString
         ++ dict_get_default "PATH" "" (environ os))%string.
Proof.
  unfold add_dot2path. cbn [environ]. rewrite get_set_same. f_equal.
  rewrite concat_cons by apply PyStrFacts.split_not_nil.
  rewrite PyStrFacts.split_join. reflexivity.
Qed.

(** X16.  [add_dot2path] puts the current directory and a separator in
    front of the old value of [PATH] (";" on Windows, ":" elsewhere); when
    [PATH] was not set, the new value is the directory followed by the
    separator.  No other variable changes. *)
Theorem X16_add_dot2path_prepends (os : Os) :
  let sep := String (path_sep os) EmptyString in
  let old := dict_get_default "PATH" "" (environ os) in
  PyDict.get "PATH" (environ (add_dot2path os)) = inr (abs_curdir os ++ sep ++ old)%string
  /\ (forall k, k <> "PATH" ->
        PyDict.get k (environ (add_dot2path os)) = PyDict.get k (environ os))
  /\ os_name (add_dot2path os) = os_name os
  /\ abs_curdir (add_dot2path os) = abs_curdir os.
Proof.
  intros sep old. split; [apply new_path|].
  unfold add_dot2path. cbn [environ os_name abs_curdir].
  split; [|split; reflexivity].
  intros k Hk. apply get_set_other. exact Hk.
Qed.

Lemma X16_add_dot2path_prepends_witness :
  PyDict.get "PATH" (environ (add_dot2path posix)) = inr "/data/xdi:/usr/bin:/bin"
  /\ PyDict.get "HOME" (environ (add_dot2path posix)) = inr "/home/xas"
  /\ PyDict.get "PATH" (environ (add_dot2path posix_no_path)) = inr "/data/xdi:".
Proof.
  split; [|split].
  - apply (proj1 (X16_add_dot2path_prepends posix)).
  - rewrite (proj1 (proj2 (X16_add_dot2path_prepends posix)) "HOME"); [reflexivity|].
    discriminate.
  - apply (proj1 (X16_add_dot2path_prepends posix_no_path)).
Defined.

Lemma split_app (sep : ascii) (a b : string) :
  PyStr.has_char sep a = false ->
  PyStr.split sep (a ++ String sep b) = a :: PyStr.split sep b.
Proof.
  induction a as [|c a IH]; simpl; intros H.
  - rewrite Ascii.eqb_refl. reflexivity.
  - apply orb_false_iff in H. destruct H as [Hc Ha].
    rewrite Hc, (IH Ha). reflexivity.
Qed.

(** X17.  When the name of the current directory does not contain the
    separator, the entries of the new [PATH] are the directory followed by
    the entries of the old value; an unset or empty [PATH] leaves one empty
    entry after the directory. *)
Theorem X17_add_dot2path_entries (os : Os) :
  PyStr.has_char (path_sep os) (abs_curdir os) = false ->
  exists new,
    PyDict.get "PATH" (environ (add_dot2path os)) = inr new
    /\ PyStr.split (path_sep os) new
       = abs_curdir os
         :: PyStr.split (path_sep os) (dict_get_default "PATH" "" (environ os)).
Proof.
  intros H. eexists. split; [apply new_path|].
  simpl. apply split_app. exact H.
Qed.

Lemma X17_add_dot2path_entries_witness :
  exists new,
    PyDict.get "PATH" (environ (add_dot2path posix_no_path)) = inr new
    /\ PyStr.split ":" new = ["/data/xdi"; ""].
Proof.
  destruct (X17_add_dot2path_entries posix_no_path eq_refl) as (new & H1 & H2).
  exists new. split; [exact H1 | exact H2].
Defined.

(** ** The metadata *)

Lemma dict_has_In {V} (k : string) (d : list (string * V)) :
  dict_has k d = true <-> In k (map fst d).
Proof.
  unfold dict_has. rewrite existsb_exists, in_map_iff. split.
  - intros (kv & H & E). apply String.eqb_eq in E. eauto.
  - intros (kv & E & H). exists kv. split; [exact H|]. apply String.eqb_eq, E.
Qed.

Lemma get_of_key {V} (k : string) (d : list (string * V)) :
  In k (map fst d) -> exists v, PyDict.get k d = inr v.
Proof.
  induction d as [|[k0 v0] r IH]; simpl; [contradiction|].
  destruct (String.eqb_spec k0 k) as [->|Hne]; [eauto|].
  intros [H|H]; [contradiction | auto].
Qed.

Lemma get_no_key {V} (k : string) (d : list (string * V)) :
  ~ In k (map fst d) -> PyDict.get k d = inl KeyError.
Proof.
  induction d as [|[k0 v0] r IH]; simpl; [reflexivity|].
  intros H. destruct (String.eqb_spec k0 k) as [->|Hne]; [exfalso; auto | auto].
Qed.

(** The family is in the dictionary when the value is stored. *)
Lemma meta_step_inner (attrs : meta) (fam : string) :
  exists inner,
    PyDict.get fam (if dict_has fam attrs then attrs else PyDict.set fam [] attrs)
    = inr inner
    /\ (dict_has fam attrs = true -> PyDict.get fam attrs = inr inner)
    /\ (dict_has fam attrs = false -> inner = []).
Proof.
  destruct (dict_has fam attrs) eqn:E.
  - destruct (get_of_key fam attrs (proj1 (dict_has_In fam attrs) E)) as (v & Hv).
    exists v. split; [exact Hv|]. split; [auto | discriminate].
  - exists []. split; [apply get_set_same|]. split; [discriminate | reflexivity].
Qed.

Lemma meta_body_step (t : string * string * string) (attrs : meta) :
  meta_body t attrs = (inr tt, meta_step attrs t).
Proof.
  unfold meta_body, meta_step, bind, gets, when, modify, lift, ret.
  destruct (meta_step_inner attrs (PyStr.lower (fst (fst t)))) as (inner & Hi & _).
  destruct (dict_has (PyStr.lower (fst (fst t))) attrs); simpl; rewrite Hi; reflexivity.
Qed.

Lemma read_attrs_run (mfams mkeys mvals : list string) (st : meta) :
  read_attrs mfams mkeys mvals st
  = (inr tt, fold_left meta_step (zip3 mfams mkeys mvals) []).
Proof.
  unfold read_attrs, bind, modify.
  apply (for_each_fold meta_body meta_step meta_body_step).
Qed.

Lemma lookup_step (attrs : meta) (t : string * string * string) (fam key : string) :
  lookup fam key (meta_step attrs t)
  = if String.eqb (PyStr.lower (fst (fst t))) fam
       && String.eqb (PyStr.lower (snd (fst t))) key
    then inr (snd t)
    else lookup fam key attrs.
Proof.
  unfold meta_step, lookup. cbv zeta. unfold meta in *.
  set (F := PyStr.lower (fst (fst t))). set (K := PyStr.lower (snd (fst t))).
  destruct (meta_step_inner attrs F) as (inner & Hi & Hold & Hnew). rewrite Hi.
  assert (Hpre : PyDict.get fam (if dict_has F attrs then attrs else PyDict.set F [] attrs)
                 = if String.eqb F fam then inr inner else PyDict.get fam attrs).
  { destruct (String.eqb_spec F fam) as [<-|Hne]; [exact Hi|].
    destruct (dict_has F attrs); [reflexivity|].
    apply get_set_other. congruence. }
  destruct (String.eqb_spec F fam) as [<-|Hne]; simpl.
  - rewrite get_set_same. simpl.
    destruct (String.eqb_spec K key) as [<-|Hk].
    + apply get_set_same.
    + rewrite get_set_other by congruence.
      destruct (dict_has F attrs) eqn:E.
      * rewrite (Hold eq_refl). reflexivity.
      * rewrite (Hnew eq_refl). rewrite (get_no_key F attrs); [reflexivity|].
        intros H. apply dict_has_In in H. congruence.
  - rewrite get_set_other by congruence. rewrite Hpre. reflexivity.
Qed.

(** X18.  The metadata loop does not raise, and afterwards
    [self.attrs[fam][key]] is the value of the last metadata line whose
    family and keyword, put in lower case, are [fam] and [key]; it is a
    [KeyError] when there is no such line.  Families and keywords that
    differ only in the case of their letters are therefore the same
    entry. *)
Theorem X18_metadata_lookup
  (mfams mkeys mvals : list string) (st : meta) (fam key : string) :
  exists attrs,
    read_attrs mfams mkeys mvals st = (inr tt, attrs)
    /\ lookup fam key attrs
       = match last_entry fam key (zip3 mfams mkeys mvals) with
         | Some t => inr (snd t)
         | None => inl KeyError
         end.
Proof.
  eexists. split; [apply read_attrs_run|].
  unfold last_entry. induction (zip3 mfams mkeys mvals) as [|t l IH] using rev_ind.
  - reflexivity.
  - rewrite fold_left_app, rev_app_distr. simpl. rewrite lookup_step.
    destruct (String.eqb (PyStr.lower (fst (fst t))) fam
              && String.eqb (PyStr.lower (snd (fst t))) key); [reflexivity | exact IH].
Qed.

(** "Mono.d_spacing" is given twice, in different cases: the later value
    is the one found, under the lower-case names only. *)
Example metadata_lookup_sample :
  exists attrs,
    read_attrs sample_families sample_keywords sample_values [] = (inr tt, attrs)
    /\ lookup "mono" "d_spacing" attrs = inr "3.1356"
    /\ lookup "Mono" "d_spacing" attrs = inl KeyError
    /\ lookup "beamline" "name" attrs = inr "13ID".
Proof. eexists. split; [reflexivity|]. repeat split. Qed.

Lemma lower_ascii_idem (c : ascii) :
  PyStr.lower_ascii (PyStr.lower_ascii c) = PyStr.lower_ascii c.
Proof.
  destruct c as [[] [] [] [] [] [] [] []]; vm_compute; reflexivity.
Qed.

Lemma lower_idem (s : string) : PyStr.lower (PyStr.lower s) = PyStr.lower s.
Proof.
  induction s as [|c s IH]; simpl; [reflexivity|].
  rewrite lower_ascii_idem, IH. reflexivity.
Qed.

Lemma set_In_strong {V} (k k' : string) (v v' : V) (d : list (string * V)) :
  NoDup (map fst d) ->
  In (k', v') (PyDict.set k v d) ->
  (k' = k /\ v' = v) \/ (k' <> k /\ In (k', v') d).
Proof.
  intros Hnd Hin. destruct (String.eqb_spec k' k) as [->|Hne].
  - left. split; [reflexivity|].
    pose proof (PyDictFacts.set_NoDup k v d Hnd) as Hnd'.
    apply (PyDictFacts.get_In k v' _ Hnd') in Hin.
    rewrite get_set_same in Hin. congruence.
  - right. split; [exact Hne|]. apply PyDictFacts.set_In in Hin.
    destruct Hin as [[E _]|H]; [contradiction | exact H].
Qed.

Lemma meta_step_ok (l : list (string * string * string)) (attrs : meta)
  (t : string * string * string) :
  meta_ok l attrs -> meta_ok (l ++ [t]) (meta_step attrs t).
Proof.
  intros [Hnd Hall]. unfold meta_step. cbv zeta. unfold meta in *.
  set (F := PyStr.lower (fst (fst t))). set (K := PyStr.lower (snd (fst t))).
  destruct (meta_step_inner attrs F) as (inner & Hi & Hold & Hnew). rewrite Hi.
  set (attrs1 := if dict_has F attrs then attrs else PyDict.set F [] attrs) in *.
  assert (Hnd1 : NoDup (map fst attrs1)).
  { unfold attrs1. destruct (dict_has F attrs); [exact Hnd|].
    apply PyDictFacts.set_NoDup, Hnd. }
  assert (Hinner : NoDup (map fst inner)
                   /\ forall key v, In (key, v) inner ->
                        PyStr.lower key = key
                        /\ exists f k, In (f, k, v) l
                                       /\ PyStr.lower f = F /\ PyStr.lower k = key).
  { destruct (dict_has F attrs) eqn:E.
    - apply PyDictFacts.get_inr in Hi. destruct (Hall F inner Hi) as (_ & _ & H1 & H2).
      split; assumption.
    - rewrite (Hnew eq_refl). split; [constructor | intros key v []]. }
  destruct Hinner as [Hndi Hvals].
  assert (Hold1 : forall fam inn, fam <> F -> In (fam, inn) attrs1 -> In (fam, inn) attrs).
  { intros fam inn Hne H. unfold attrs1 in H. destruct (dict_has F attrs); [exact H|].
    apply PyDictFacts.set_In in H. destruct H as [[E _]|H]; [contradiction | exact H]. }
  split; [apply PyDictFacts.set_NoDup, Hnd1|].
  intros fam inn Hin. apply (set_In_strong F fam _ inn attrs1 Hnd1) in Hin.
  destruct Hin as [[-> ->]|[Hne Hin]].
  - split; [apply lower_idem|]. split; [|split].
    + destruct inner as [|[k0 v0] r]; simpl; [discriminate|].
      destruct (String.eqb k0 K); discriminate.
    + apply PyDictFacts.set_NoDup, Hndi.
    + intros key v Hkv. apply PyDictFacts.set_In in Hkv.
      destruct Hkv as [[-> ->]|Hkv].
      * split; [apply lower_idem|]. exists (fst (fst t)), (snd (fst t)).
        split; [|split; reflexivity]. apply in_or_app. right. left.
        destruct t as [[f k] v]. reflexivity.
      * destruct (Hvals key v Hkv) as (H1 & f & k & H2 & H3 & H4).
        split; [exact H1|]. exists f, k. split; [apply in_or_app; left; exact H2 | auto].
  - destruct (Hall fam inn (Hold1 fam inn Hne Hin)) as (H1 & H2 & H3 & H4).
    split; [exact H1|]. split; [exact H2|]. split; [exact H3|].
    intros key v Hkv. destruct (H4 key v Hkv) as (H5 & f & k & H6 & H7 & H8).
    split; [exact H5|]. exists f, k. split; [apply in_or_app; left; exact H6 | auto].
Qed.

(** X19.  After the metadata loop, [self.attrs] has no family twice and
    no keyword twice in a family; every family and every keyword is in
    lower case; no family is empty; and every value comes from a metadata
    line of that family and keyword. *)
Theorem X19_metadata_keys_lower_case
  (mfams mkeys mvals : list string) (st : meta) :
  exists attrs,
    read_attrs mfams mkeys mvals st = (inr tt, attrs)
    /\ NoDup (map fst attrs)
    /\ forall fam inner,
         In (fam, inner) attrs ->
         PyStr.lower fam = fam
         /\ inner <> []
         /\ NoDup (map fst inner)
         /\ forall key v,
              In (key, v) inner ->
              PyStr.lower key = key
              /\ exists f k, In (f, k, v) (zip3 mfams mkeys mvals)
                             /\ PyStr.lower f = fam /\ PyStr.lower k = key.
Proof.
  eexists. split; [apply read_attrs_run|].
  change (meta_ok (zip3 mfams mkeys mvals)
                  (fold_left meta_step (zip3 mfams mkeys mvals) [])).
  induction (zip3 mfams mkeys mvals) as [|t l IH] using rev_ind.
  - split; [constructor | intros fam inner []].
  - rewrite fold_left_app. simpl. apply meta_step_ok, IH.
Qed.

(** The families of the sample are ["mono"] and ["beamline"]. *)
Lemma X19_metadata_keys_lower_case_witness :
  exists attrs,
    read_attrs sample_families sample_keywords sample_values [] = (inr tt, attrs)
    /\ PyStr.lower "mono" = "mono"
    /\ map fst attrs = ["mono"; "beamline"].
Proof.
  destruct (X19_metadata_keys_lower_case sample_families sample_keywords sample_values [])
    as (attrs & Hrun & _ & Hall).
  exists attrs. split; [exact Hrun|].
  vm_compute in Hrun. injection Hrun as <-. split; [|reflexivity].
  apply (Hall "mono" [("d_spacing", "3.1356")]). left. reflexivity.
Defined.

End XdiFacts.

(** ** The units and the addresses *)

Module XdiUnits.
Import Xdi.

Lemma prefix_skip (sep s : string) :
  String.prefix sep s = true -> s = (sep ++ skip (String.length sep) s)%string.
Proof.
  revert s; induction sep as [|c sep IH]; intros s H.
  - reflexivity.
  - destruct s as [|d s]; simpl in H; [discriminate|].
    destruct (ascii_dec c d) as [->|Hne]; [|discriminate].
    simpl. f_equal. apply IH, H.
Qed.

Lemma prefix_app (sep b : string) : String.prefix sep (sep ++ b) = true.
Proof.
  induction sep as [|c sep IH]; simpl; [destruct b; reflexivity|].
  destruct (ascii_dec c c); [exact IH | congruence].
Qed.

(** [split_first] finds the first occurrence of the separator. *)
Lemma split_first_some (sep s a b : string) :
  split_first sep s = Some (a, b) ->
  s = (a ++ sep ++ b)%string
  /\ forall a' b', s = (a' ++ sep ++ b')%string -> String.length a <= String.length a'.
Proof.
  revert a b; induction s as [|c s IH]; intros a b; cbn [split_first].
  - destruct (String.prefix sep "") eqn:E; intros H; [|discriminate].
    inversion H; subst. split; [apply (prefix_skip sep "" E) | intros; simpl; lia].
  - destruct (String.prefix sep (String c s)) eqn:E.
    + intros H. inversion H; subst.
      split; [apply (prefix_skip sep _ E) | intros; simpl; lia].
    + destruct (split_first sep s) as [[a0 b0]|] eqn:Es; intros H; [|discriminate].
      inversion H; subst. destruct (IH a0 b eq_refl) as [Hs Hmin].
      split; [simpl; rewrite <- Hs; reflexivity|].
      intros a' b' Ha. destruct a' as [|c' a'].
      * simpl in Ha. rewrite Ha, prefix_app in E. discriminate.
      * simpl in Ha. inversion Ha; subst. simpl. apply le_n_S. eapply Hmin. eassumption.
Qed.

Lemma contains_split_first (sep s : string) :
  PyStr.contains sep s = true <-> exists a b, split_first sep s = Some (a, b).
Proof.
  induction s as [|c s IH]; cbn [PyStr.contains split_first].
  - destruct (String.prefix sep ""); simpl; split; eauto; try discriminate.
    intros (a & b & H). discriminate.
  - destruct (String.prefix sep (String c s)); simpl.
    + split; eauto.
    + rewrite IH. split.
      * intros (a & b & H). rewrite H. eauto.
      * intros (a & b & H). destruct (split_first sep s) as [[a0 b0]|]; [eauto | discriminate].
Qed.

Lemma unit_addr_run (unit : string) : unit_addr unit = inr (unit_addr_of unit).
Proof.
  unfold unit_addr, unit_addr_of, split1.
  destruct (PyStr.contains "||" unit) eqn:E.
  - apply contains_split_first in E. destruct E as (a & b & E). rewrite E. reflexivity.
  - destruct (split_first "||" unit) as [[a b]|] eqn:Es; [|reflexivity].
    assert (PyStr.contains "||" unit = true) by (apply contains_split_first; eauto).
    congruence.
Qed.

Lemma read_units_run (arr_units us ads : list string) :
  read_units arr_units us ads
  = inr (us ++ map (fun u => fst (unit_addr_of u)) arr_units,
         ads ++ map (fun u => snd (unit_addr_of u)) arr_units).
Proof.
  revert us ads; induction arr_units as [|u l IH]; intros us ads; simpl.
  - rewrite !app_nil_r. reflexivity.
  - rewrite unit_addr_run. destruct (unit_addr_of u) as [x a] eqn:E.
    rewrite IH, <- !app_assoc. reflexivity.
Qed.

(** X20.  The units loop never fails to unpack, and it fills
    [array_units] and [array_addrs] with one item each per entry of
    [arr_units], at the same index.  An entry without "||" is kept as it
    is, spaces included, with the empty address; an entry with "||" is cut
    at the first "||", and the two sides are stripped of the white space
    around them. *)
Theorem X20_units_and_addresses (arr_units : list string) :
  exists units addrs,
    read_units arr_units [] [] = inr (units, addrs)
    /\ length units = length arr_units
    /\ length addrs = length arr_units
    /\ forall k u,
         nth_error arr_units k = Some u ->
         exists u' a',
           nth_error units k = Some u'
           /\ nth_error addrs k = Some a'
           /\ (PyStr.contains "||" u = false -> u' = u /\ a' = "")
           /\ (PyStr.contains "||" u = true ->
               exists x y,
                 u = (x ++ "||" ++ y)%string
                 /\ u' = strip x /\ a' = strip y
                 /\ forall x' y', u = (x' ++ "||" ++ y')%string ->
                                  String.length x <= String.length x').
Proof.
  eexists. eexists. split; [apply read_units_run|]. simpl.
  split; [apply length_map|]. split; [apply length_map|].
  intros k u Hk. exists (fst (unit_addr_of u)), (snd (unit_addr_of u)).
  split; [rewrite nth_error_map, Hk; reflexivity|].
  split; [rewrite nth_error_map, Hk; reflexivity|].
  unfold unit_addr_of. split.
  - intros Hc. destruct (split_first "||" u) as [[a b]|] eqn:E; [|auto].
    assert (PyStr.contains "||" u = true) by (apply contains_split_first; eauto).
    congruence.
  - intros Hc. apply contains_split_first in Hc. destruct Hc as (a & b & E).
    rewrite E. simpl. destruct (split_first_some _ _ _ _ E) as [Hs Hmin].
    exists a, b. auto.
Qed.

(** The second entry of the sample, [" counts || /entry/i0 "]. *)
Lemma X20_units_and_addresses_witness :
  exists units addrs,
    read_units sample_units [] [] = inr (units, addrs)
    /\ nth_error units 1 = Some "counts"
    /\ nth_error addrs 1 = Some "/entry/i0".
Proof.
  destruct (X20_units_and_addresses sample_units) as (units & addrs & Hrun & _ & _ & H).
  destruct (H 1%nat " counts || /entry/i0 " eq_refl) as (u' & a' & Hu & Ha & _ & Hsplit).
  exists units, addrs. split; [exact Hrun|].
  vm_compute in Hrun. injection Hrun as <- <-. split; reflexivity.
Defined.

End XdiUnits.

(** ** C9: the empty collection and the diagnostics *)

(** C9, amended.  When the descriptor collection is empty, the pipeline
    does not fail: it returns the document with the context, the type, the
    given name and no entry.  The diagnostics for single descriptors do not
    abort the run: when the paths and labels can be printed and the
    evaluation of a descriptor raises, the error is caught and reported,
    the classifier returns, every descriptor whose evaluation does not
    raise is in a group, and the pipeline returns a document. *)
Theorem C9_empty_collection_and_diagnostics
  (rt : Runtime) (f : h5file) (dataset_name : string) :
  (datasets_info (final_store rt f) = [] ->
   fst (pipeline rt f dataset_name) = inr (empty_document dataset_name))
  /\ (forall n i,
        printable (datasets_info (final_store rt f)) = true ->
        In (n, i) (datasets_info (final_store rt f)) ->
        raises rt (final_store rt f) n i ->
        exists c doc,
          returned rt f = inr c
          /\ fst (pipeline rt f dataset_name) = inr doc
          /\ In [PText n; PShape (shape i); PDims (dims i)] (stdout (final_store rt f))
          /\ forall n' i',
               In (n', i') (datasets_info (final_store rt f)) ->
               ~ raises rt (final_store rt f) n' i' ->
               exists r, assigned c i' r).
Proof.
  split.
  - rewrite pipeline_run, final_datasets_info. simpl.
    intros H. rewrite (members_of_empty rt f H). reflexivity.
  - intros n i _ Hin Hr.
    pose proof Hin as Hin'. rewrite final_datasets_info in Hin'.
    apply (node_role_raises rt f n i Hin') in Hr. destruct Hr as (e & He).
    destruct (raising_node_reported_and_dropped rt f n i e Hin) as (c & Hc & _ & Hlog).
    { rewrite final_datasets_info, final_dim_candidates. exact He. }
    exists c. eexists. split; [exact Hc|].
    split; [rewrite pipeline_run; simpl; apply build_jsonld_run|].
    split; [exact Hlog|].
    intros n' i' Hin2 Hnr. rewrite returned_classified in Hc. inversion Hc; subst c.
    pose proof Hin2 as Hin2'. rewrite final_datasets_info in Hin2'.
    destruct (node_role rt (collect f) (candidates (collect f)) n' i') as [e'|r] eqn:E.
    + exfalso. apply Hnr. apply (node_role_raises rt f n' i' Hin2'). eauto.
    + exists r. apply (role_assigned rt f n' i' r Hin2' E).
Qed.

(** A file of groups only gives the empty document; in the file with the
    table of compound type the table is reported and the axis is still
    classified. *)
Lemma C9_empty_collection_and_diagnostics_witness :
  fst (pipeline rt_fifo file_groups "Example HDF5 Dataset")
  = inr (empty_document "Example HDF5 Dataset")
  /\ exists c doc,
       returned rt_fifo file_compound = inr c
       /\ fst (pipeline rt_fifo file_compound "Example HDF5 Dataset") = inr doc
       /\ exists r, assigned c energy_info r.
Proof.
  split.
  - apply (proj1 (C9_empty_collection_and_diagnostics rt_fifo file_groups
                    "Example HDF5 Dataset")).
    reflexivity.
  - destruct (proj2 (C9_empty_collection_and_diagnostics rt_fifo file_compound
                       "Example HDF5 Dataset") "entry/scan" scan_info)
      as (c & doc & Hc & Hdoc & _ & Hothers).
    + reflexivity.
    + vm_compute. auto.
    + left. split; [vm_compute; auto | exists TypeError; reflexivity].
    + exists c, doc. split; [exact Hc|]. split; [exact Hdoc|].
      apply (Hothers "entry/energy" energy_info).
      * vm_compute. auto.
      * intros [(_ & e & He)|(Hs & _)]; discriminate.
Defined.
